(** * The PSA link bot ([bot.py]): resolution pipeline and chat handlers

    A shallow embedding of [bot.py].  Python strings are [string]s (one
    [ascii] per character, as in the ASCII URLs the bot handles), Python
    exceptions are values of [exn], and every call that leaves the process
    (HTTP, Telegram, [asyncio.sleep], logging) is recorded in a trace and
    answered by an environment of stubs. *)

From Stdlib Require Import String Ascii List ZArith Bool Lia DecimalString.
Import ListNotations.
Local Open Scope list_scope.
Local Open Scope string_scope.

(** ** Python string operations used by the bot *)

Module PyStr.

(** [needle in hay] on two [str]. *)
Fixpoint contains (needle hay : string) : bool :=
  if String.prefix needle hay then true
  else match hay with
       | EmptyString => false
       | String _ rest => contains needle rest
       end.

(** [s.split(sep)] for a one-character separator: never the empty list. *)
Fixpoint split (sep : ascii) (s : string) : list string :=
  match s with
  | EmptyString => [EmptyString]
  | String c rest =>
      if Ascii.eqb c sep then EmptyString :: split sep rest
      else match split sep rest with
           | [] => [String c EmptyString]
           | w :: ws => String c w :: ws
           end
  end.

(** [sep.join(words)]. *)
Definition join (sep : string) (words : list string) : string :=
  String.concat sep words.

(** [str.isspace] on one ASCII character. *)
Definition is_space (c : ascii) : bool :=
  let n := nat_of_ascii c in
  (((9 <=? n) && (n <=? 13)) || ((28 <=? n) && (n <=? 32)))%nat.

Fixpoint lstrip (s : string) : string :=
  match s with
  | String c rest => if is_space c then lstrip rest else s
  | EmptyString => EmptyString
  end.

Fixpoint rstrip (s : string) : string :=
  match s with
  | EmptyString => EmptyString
  | String c rest =>
      match rstrip rest with
      | EmptyString => if is_space c then EmptyString else String c EmptyString
      | r => String c r
      end
  end.

(** [s.strip()]. *)
Definition strip (s : string) : string := rstrip (lstrip s).

Definition lower_char (c : ascii) : ascii :=
  let n := nat_of_ascii c in
  if ((65 <=? n) && (n <=? 90))%nat then ascii_of_nat (n + 32) else c.

Definition upper_char (c : ascii) : ascii :=
  let n := nat_of_ascii c in
  if ((97 <=? n) && (n <=? 122))%nat then ascii_of_nat (n - 32) else c.

(** [s.lower()]. *)
Fixpoint lower (s : string) : string :=
  match s with
  | EmptyString => EmptyString
  | String c rest => String (lower_char c) (lower rest)
  end.

(** [s.capitalize()]. *)
Definition capitalize (s : string) : string :=
  match s with
  | EmptyString => EmptyString
  | String c rest => String (upper_char c) (lower rest)
  end.

(** [s.replace(old, new)] for a non-empty [old]: the occurrences are
    replaced from the left and do not overlap ([skip] counts the
    characters of the occurrence being replaced that are still to pass). *)
Fixpoint replace_from (old new : string) (skip : nat) (s : string) : string :=
  match s with
  | EmptyString => EmptyString
  | String c rest =>
      match skip with
      | S k => replace_from old new k rest
      | O =>
          if String.prefix old s
          then new ++ replace_from old new (String.length old - 1) rest
          else String c (replace_from old new O rest)
      end
  end.

Definition replace (old new s : string) : string := replace_from old new O s.

(** [a and b] on two [str]: the first operand when it is falsy (empty),
    the second otherwise. *)
Definition and_ (a b : string) : string :=
  match a with
  | EmptyString => a
  | _ => b
  end.

(** [s[i]] for [0 <= i]: a one-character string, [None] for IndexError. *)
Definition index (s : string) (i : nat) : option string :=
  match String.get i s with
  | Some c => Some (String c EmptyString)
  | None => None
  end.

(** [s[1:]]. *)
Definition tail (s : string) : string :=
  match s with
  | EmptyString => EmptyString
  | String _ rest => rest
  end.

(** [s[-1]], [None] for IndexError. *)
Fixpoint last (s : string) : option ascii :=
  match s with
  | EmptyString => None
  | String c EmptyString => Some c
  | String _ rest => last rest
  end.

(** [s[:-1]]. *)
Fixpoint drop_last (s : string) : string :=
  match s with
  | EmptyString => EmptyString
  | String _ EmptyString => EmptyString
  | String c rest => String c (drop_last rest)
  end.

(** [str(n)] for a non-negative [int]. *)
Definition of_nat (n : nat) : string :=
  NilZero.string_of_uint (Nat.to_uint n).

Definition newline : ascii := ascii_of_nat 10.
Definition nl : string := String newline EmptyString.

End PyStr.

(** [l[i]] on a Python list, [None] for IndexError; [l[:-1]] is
    [removelast]. *)
Definition list_index {A : Type} (l : list A) (i : nat) : option A :=
  nth_error l i.

(** ** The two regular expressions *)

Module Re.

(** [s] without the prefix [p], when it has it. *)
Fixpoint drop_prefix (p s : string) : option string :=
  match p, s with
  | EmptyString, _ => Some s
  | String a p', String b s' =>
      if Ascii.eqb a b then drop_prefix p' s' else None
  | String _ _, EmptyString => None
  end.

(** The group [(.*?)] followed by a space: the characters up to the first
    space, none of them a newline ([.] does not match it). *)
Fixpoint lazy_until_space (s : string) : option string :=
  match s with
  | EmptyString => None
  | String c rest =>
      if Ascii.eqb c " " then Some EmptyString
      else if Ascii.eqb c PyStr.newline then None
      else option_map (String c) (lazy_until_space rest)
  end.

Definition match_here (text : string) : option string :=
  match drop_prefix "try2link.com/" text with
  | Some rest => lazy_until_space rest
  | None => None
  end.

(** [re.findall('try2link\.com\/(.*?) ', text)[0]]: the group of the
    leftmost match, [None] (IndexError) when there is no match. *)
Fixpoint findall_first (text : string) : option string :=
  match match_here text with
  | Some group => Some group
  | None =>
      match text with
      | EmptyString => None
      | String _ rest => findall_first rest
      end
  end.

(** [re.search("https://psa\.(pm|re)/", s)] as a truth value. *)
Definition search_psa (s : string) : bool :=
  PyStr.contains "https://psa.pm/" s || PyStr.contains "https://psa.re/" s.

End Re.

(** ** The parsed HTML tree (BeautifulSoup) *)

Module Soup.

(** A tag with its attributes and children, or a text node.  The [class]
    attribute is kept as the string BeautifulSoup compares a
    several-classes search against. *)
#[warnings="-register-all"]
Inductive node : Type :=
| Tag (name : string) (attrs : list (string * string)) (children : list node)
| NavigableString (s : string).

(** All the nodes below [n], in document order. *)
Fixpoint descendants (n : node) : list node :=
  match n with
  | Tag _ _ children =>
      (fix below (l : list node) : list node :=
         match l with
         | [] => []
         | c :: l' => c :: (descendants c ++ below l')%list
         end) children
  | NavigableString _ => []
  end.

(** The nodes of a whole document, given by its top-level nodes. *)
Definition nodes (doc : list node) : list node :=
  flat_map (fun c => c :: descendants c) doc.

(** [tag.get(key)]. *)
Definition get (key : string) (n : node) : option string :=
  match n with
  | Tag _ attrs _ =>
      option_map snd (find (fun kv => String.eqb (fst kv) key) attrs)
  | NavigableString _ => None
  end.

Definition has_name (name : string) (n : node) : bool :=
  match n with
  | Tag nm _ _ => String.eqb nm name
  | NavigableString _ => false
  end.

Definition has_attr (key value : string) (n : node) : bool :=
  match get key n with
  | Some v => String.eqb v value
  | None => false
  end.

(** [soup.find(id=value)]. *)
Definition find_id (value : string) (doc : list node) : option node :=
  find (has_attr "id" value) (nodes doc).

(** [soup.find_all(class_=value)]. *)
Definition find_all_class (value : string) (doc : list node) : list node :=
  filter (has_attr "class" value) (nodes doc).

(** [tag.find_all(name=name)]. *)
Definition find_all_name (name : string) (n : node) : list node :=
  filter (has_name name) (descendants n).

(** [tag.a]: the first [<a>] below the tag. *)
Definition a (n : node) : option node :=
  find (has_name "a") (descendants n).

End Soup.

(** ** Exceptions, the outside world and the monad of the bot's code *)

(** The exceptions that travel through [bot.py], each with the text of
    [str(error)].  All but [CancelledError] derive from [Exception]. *)
Inductive exn : Type :=
| IndexError (msg : string)
| AttributeError (msg : string)
| TypeError (msg : string)
| KeyError (msg : string)
| FloodWait (value : Z) (msg : string)
| UserNotParticipant (msg : string)
| Exception_ (msg : string)
| LibraryError (msg : string)
| CancelledError.

Definition is_Exception (e : exn) : bool :=
  match e with
  | CancelledError => false
  | _ => true
  end.

(** [str(error)]. *)
Definition str (e : exn) : string :=
  match e with
  | IndexError m | AttributeError m | TypeError m | KeyError m
  | FloodWait _ m | UserNotParticipant m | Exception_ m | LibraryError m => m
  | CancelledError => EmptyString
  end.

Inductive outcome (A : Type) : Type :=
| Ret (a : A)
| Raise (e : exn).
Arguments Ret {A} a.
Arguments Raise {A} e.

(** The value handed to [asyncio.sleep]: a number of seconds, or (as in
    the two handlers) the caught exception object. *)
Inductive pyval : Type :=
| PyInt (z : Z)
| PyExn (e : exn).

Record Response : Type := {
  resp_text : string;
  (** the body as a JSON object, [None] when it is not one *)
  resp_json : option (list (string * string))
}.

Record Button : Type := {
  btn_text : string;
  callback_data : string
}.

Definition Markup : Type := list (list Button).

(** A user's message; [from_user] is the sender's id. *)
Record Message : Type := {
  message_id : Z;
  from_user : option Z;
  msg_text : option string
}.

(** The bot's own menu message, sent as a reply to a user's message. *)
Record MenuMessage : Type := {
  menu_id : Z;
  reply_to_message : option Message
}.

(** [q_from_user] is the user who pressed the button. *)
Record CallbackQuery : Type := {
  q_from_user : Z;
  q_data : string;
  q_message : MenuMessage
}.

Inductive log_level : Type := WARNING | ERROR.

(** The calls that leave the process, with their arguments. *)
Inductive event : Type :=
| EvGet (url : string) (params : list (string * Z)) (headers : list (string * string))
| EvPost (url : string) (headers : list (string * string))
         (data : list (option string * option string))
| EvSleep (seconds : Z)
| EvGetChatMember (chat : string) (user_id : Z)
| EvReply (to : Message) (text : string) (markup : option Markup)
| EvDelete (m : MenuMessage)
| EvAnswer (text : string) (show_alert : bool)
| EvLog (level : log_level) (text : string).

(** The stubs.  Each is asked with the trace so far, whose last event is
    the call being answered, so an answer may depend on the whole history. *)
Record Env : Type := {
  CHAT : string;
  (** [int(time.time())] *)
  time_time : list event -> Z;
  (** the cloudscraper client: response or exception of [get] and [post] *)
  http : list event -> outcome Response;
  (** [BeautifulSoup(text, "html.parser")] as the top-level nodes *)
  parse_html : string -> list Soup.node;
  (** the Telegram client: the exception a call raises, if any *)
  telegram : list event -> option exn
}.

Definition M (A : Type) : Type := list event -> outcome A * list event.

Definition ret {A : Type} (a : A) : M A := fun w => (Ret a, w).

Definition raise {A : Type} (e : exn) : M A := fun w => (Raise e, w).

Definition bind {A B : Type} (c : M A) (k : A -> M B) : M B :=
  fun w =>
    match c w with
    | (Ret a, w') => k a w'
    | (Raise e, w') => (Raise e, w')
    end.

Declare Scope py_scope.
Delimit Scope py_scope with py.
Notation "x <- c ;; k" := (bind c (fun x => k))
  (at level 61, c at next level, right associativity) : py_scope.
Notation "c ;; k" := (bind c (fun _ => k))
  (at level 61, right associativity) : py_scope.
Local Open Scope py_scope.

(** [try: body / except ...:], where [handlers e] is the body of the first
    clause that catches [e], if any. *)
Definition try_except {A : Type} (body : M A) (handlers : exn -> option (M A)) : M A :=
  fun w =>
    match body w with
    | (Ret a, w') => (Ret a, w')
    | (Raise e, w') =>
        match handlers e with
        | Some handler => handler w'
        | None => (Raise e, w')
        end
    end.

(** A value that may be missing, with the exception its use raises. *)
Definition or_raise {A : Type} (o : option A) (e : exn) : M A :=
  match o with
  | Some a => ret a
  | None => raise e
  end.

Definition of_outcome {A : Type} (o : outcome A) : M A := fun w => (o, w).

(** [for x in l: body x]. *)
Fixpoint for_each {A : Type} (l : list A) (body : A -> M unit) : M unit :=
  match l with
  | [] => ret tt
  | x :: rest => body x ;; for_each rest body
  end.

Definition list_index_error : exn := IndexError "list index out of range".
Definition string_index_error : exn := IndexError "string index out of range".
Definition none_has_no (attr : string) : exn :=
  AttributeError ("'NoneType' object has no attribute '" ++ attr ++ "'").

(** *** The primitive calls *)

Definition telegram_call (env : Env) (ev : event) : M unit :=
  fun w =>
    let w' := (w ++ [ev])%list in
    match telegram env w' with
    | Some e => (Raise e, w')
    | None => (Ret tt, w')
    end.

Definition http_call (env : Env) (ev : event) : M Response :=
  fun w => let w' := (w ++ [ev])%list in (http env w', w').

(** [client.get(url, params=, headers=)]; without a URL no request is
    sent. *)
Definition client_get (env : Env) (url : option string)
    (params : list (string * Z)) (headers : list (string * string)) : M Response :=
  match url with
  | Some u => http_call env (EvGet u params headers)
  | None => raise (LibraryError "Invalid URL 'None': No scheme supplied.")
  end.

Definition client_post (env : Env) (url : string) (headers : list (string * string))
    (data : list (option string * option string)) : M Response :=
  http_call env (EvPost url headers data).

(** [asyncio.sleep(delay)] starts with the test [delay <= 0], which only a
    number supports. *)
Definition asyncio_sleep (delay : pyval) : M unit :=
  match delay with
  | PyInt seconds => fun w => (Ret tt, (w ++ [EvSleep seconds])%list)
  | PyExn _ =>
      raise (TypeError "'<=' not supported between instances of 'FloodWait' and 'int'")
  end.

Definition logger (level : log_level) (text : string) : M unit :=
  fun w => (Ret tt, (w ++ [EvLog level text])%list).

Definition now (env : Env) : M Z := fun w => (Ret (time_time env w), w).

(** [message.reply(text, quote=True, reply_markup=markup)]. *)
Definition reply (env : Env) (to : Message) (text : string) (markup : option Markup) : M unit :=
  telegram_call env (EvReply to text markup).

(** [response.json()]. *)
Definition json (r : Response) : M (list (string * string)) :=
  or_raise (resp_json r) (LibraryError "Expecting value").

(** The value a dict holds for [key], if any. *)
Definition dict_lookup (key : string) (d : list (string * string)) : option string :=
  option_map snd (find (fun kv => String.eqb (fst kv) key) d).

(** [d[key]] on a dict. *)
Definition dict_get (key : string) (d : list (string * string)) : M string :=
  or_raise (dict_lookup key d) (KeyError ("'" ++ key ++ "'")).

Definition option_string_eqb (a b : option string) : bool :=
  match a, b with
  | Some x, Some y => String.eqb x y
  | None, None => true
  | _, _ => false
  end.

(** [d[key] = value] on a dict kept in insertion order. *)
Fixpoint dict_set (d : list (option string * option string))
    (key value : option string) : list (option string * option string) :=
  match d with
  | [] => [(key, value)]
  | (k, v) :: rest =>
      if option_string_eqb k key then (k, value) :: rest
      else (k, v) :: dict_set rest key value
  end.

(** ** [bot.py] *)

(** *** [autorization] *)

Definition autorization (env : Env) (user_id : Z) : M unit :=
  try_except
    (telegram_call env (EvGetChatMember (CHAT env) user_id))
    (fun e =>
       match e with
       | UserNotParticipant _ =>
           Some (raise (Exception_ "You are not allowed to use this bot."))
       | _ => None
       end).

(** *** The selection menus of [handle_message] *)

Definition resolution_row (link : string) : list Button :=
  [ {| btn_text := "🔵 720P"; callback_data := "720p " ++ link |};
    {| btn_text := "🟠 1080P"; callback_data := "1080p " ++ link |};
    {| btn_text := "🔴 2160P"; callback_data := "2160p " ++ link |} ].

Definition latest_row (link : string) : list Button :=
  [ {| btn_text := "🔵 Latest"; callback_data := "l720p " ++ link |};
    {| btn_text := "🟠 Latest"; callback_data := "l1080p " ++ link |};
    {| btn_text := "🔴 Latest"; callback_data := "l2160p " ++ link |} ].

Definition cancel_row : list Button :=
  [ {| btn_text := "❌ Cancel"; callback_data := "cancel" |} ].

(** [link.split("/")[3]]. *)
Definition type_segment (link : string) : outcome string :=
  match list_index (PyStr.split "/" link) 3 with
  | Some seg => Ret seg
  | None => Raise list_index_error
  end.

(** The [match] statement on the segment: the text and keyboard of the
    reply, or no reply when no [case] applies. *)
Definition menu_of_segment (seg link : string) : option (string * Markup) :=
  if String.eqb seg "movie" then
    Some ("**Choose a resolution for:**" ++ PyStr.nl ++ link,
          [resolution_row link; cancel_row])
  else if String.eqb seg "tv-show" then
    Some ("**Select an option or resolution for:**" ++ PyStr.nl ++ link,
          [resolution_row link; latest_row link; cancel_row])
  else None.

Definition selection_menu (link : string) : outcome (option (string * Markup)) :=
  match type_segment link with
  | Ret seg => Ret (menu_of_segment seg link)
  | Raise e => Raise e
  end.

(** The links of a message:
    [[item for item in text.lower().replace("," and "\n", " ").split(" ")
      if re.search(PATTERN, text.lower())]]. *)
Definition extract_links (text : string) : list string :=
  filter (fun _item => Re.search_psa (PyStr.lower text))
         (PyStr.split " "
            (PyStr.replace (PyStr.and_ "," PyStr.nl) " " (PyStr.lower text))).

(** *** [handle_message] *)

Definition error_text (e : exn) : string := "**⚠️ Error:** " ++ str e.

Definition handle_message (env : Env) (message : Message) : M unit :=
  user_id <- or_raise (from_user message) (none_has_no "id") ;;
  autorization env user_id ;;
  text <- or_raise (msg_text message) (none_has_no "lower") ;;
  if negb (Re.search_psa (PyStr.lower text)) then ret tt
  else
    try_except
      (for_each (extract_links text)
         (fun link =>
            menu <- of_outcome (selection_menu link) ;;
            match menu with
            | Some (caption, keyboard) => reply env message caption (Some keyboard)
            | None => ret tt
            end))
      (fun e =>
         match e with
         | FloodWait _ _ => Some (asyncio_sleep (PyExn e))
         | _ =>
             if is_Exception e
             then Some (reply env message (error_text e) None)
             else None
         end).

(** *** [try2link_bypass] and [try2link_scrape] *)

Definition go_endpoint : string := "https://try2link.com/links/go".

Definition go_headers (url : string) : list (string * string) :=
  [ ("Host", "try2link.com");
    ("X-Requested-With", "XMLHttpRequest");
    ("Origin", "https://try2link.com");
    ("Referer", url) ].

(** [{input.get('name'): input.get('value') for input in inputs}]. *)
Definition form_data (inputs : list Soup.node) : list (option string * option string) :=
  fold_left
    (fun d input => dict_set d (Soup.get "name" input) (Soup.get "value" input))
    inputs [].

(** [url[:-1] if url[-1] == '/' else url]. *)
Definition strip_slash (url : string) : outcome string :=
  match PyStr.last url with
  | Some last => Ret (if Ascii.eqb last "/" then PyStr.drop_last url else url)
  | None => Raise string_index_error
  end.

Definition try2link_bypass (env : Env) (url : string) : M string :=
  url <- of_outcome (strip_slash url) ;;
  t <- now env ;;
  let params := [("d", (t + 60 * 4)%Z)] in
  r <- client_get env (Some url) params [("Referer", "https://newforex.online/")] ;;
  let soup := parse_html env (resp_text r) in
  go_link <- or_raise (Soup.find_id "go-link" soup) (none_has_no "find_all") ;;
  let inputs := Soup.find_all_name "input" go_link in
  let data := form_data inputs in
  asyncio_sleep (PyInt 7) ;;
  bypassed_url <- client_post env go_endpoint (go_headers url) data ;;
  body <- json bypassed_url ;;
  dict_get "url" body.

Definition scrape_headers : list (string * string) :=
  [ ("upgrade-insecure-requests", "1");
    ("user-agent",
     "Mozilla/5.0 (Macintosh; Intel Mac OS X 10_15_7) AppleWebKit/537.36 (KHTML, like Gecko) Chrome/105.0.0.0 Safari/537.36") ].

Definition try2link_scrape (env : Env) (url : option string) : M string :=
  res <- client_get env url [] scrape_headers ;;
  code <- or_raise (Re.findall_first (resp_text res)) list_index_error ;;
  let url := "https://try2link.com/" ++ code in
  try2link_bypass env url.

(** *** [psa_bypasser] *)

Definition box_class : string :=
  "dropshadowboxes-drop-shadow dropshadowboxes-rounded-corners dropshadowboxes-inside-and-outside-shadow dropshadowboxes-lifted-both dropshadowboxes-effect-default".

(** What one turn of the loop does to [items]. *)
Inductive step : Type :=
| Append (result : string)
| Skip
| Break.

(** The title of a resolved link:
    [" ".join(result.split("/")[3].split("-")[:-1]).strip()]. *)
Definition current_title (result : string) : outcome string :=
  match list_index (PyStr.split "/" result) 3 with
  | Some seg => Ret (PyStr.strip (PyStr.join " " (removelast (PyStr.split "-" seg))))
  | None => Raise list_index_error
  end.

(** The [if]/[elif] of the loop body on a resolved link. *)
Definition select (selection : string) (items : list string) (result : string)
    : outcome step :=
  match selection with
  | EmptyString => Raise string_index_error
  | String first _ =>
      if Ascii.eqb first "l" && PyStr.contains (PyStr.tail selection) result then
        match current_title result with
        | Raise e => Raise e
        | Ret current =>
            if (length items =? 0)%nat then Ret (Append result)
            else if (0 <? length items)%nat then
              match PyStr.index result (length items - 1) with
              | None => Raise string_index_error
              | Some ch =>
                  if PyStr.contains current ch then Ret (Append result)
                  else Ret Break
              end
            else Ret Break
        end
      else if PyStr.contains selection result then Ret (Append result)
      else Ret Skip
  end.

(** [link.a.get("href")] followed by [try2link_scrape]. *)
Definition resolve (env : Env) (link : Soup.node) : M string :=
  anchor <- or_raise (Soup.a link) (none_has_no "get") ;;
  let exit_gate := Soup.get "href" anchor in
  try2link_scrape env exit_gate.

(** The body of the [try] inside the loop. *)
Definition iteration (env : Env) (selection : string) (items : list string)
    (link : Soup.node) : M step :=
  result <- resolve env link ;;
  of_outcome (select selection items result).

(** [for link in soup: try: ... except: pass], from the [items] collected
    so far. *)
Fixpoint scan (env : Env) (selection : string) (soup : list Soup.node)
    (items : list string) : M (list string) :=
  match soup with
  | [] => ret items
  | link :: rest =>
      fun w =>
        match iteration env selection items link w with
        | (Ret (Append result), w') => scan env selection rest (items ++ [result])%list w'
        | (Ret Skip, w') => scan env selection rest items w'
        | (Ret Break, w') => (Ret items, w')
        | (Raise _, w') => scan env selection rest items w'
        end
  end.

Definition no_results : exn := Exception_ "No results found!".

Definition psa_bypasser (env : Env) (psa_url selection : string) : M (list string) :=
  r <- client_get env (Some psa_url) [] [] ;;
  let soup := Soup.find_all_class box_class (parse_html env (resp_text r)) in
  items <- scan env selection soup [] ;;
  if (length items =? 0)%nat then raise no_results else ret items.

(** *** [handle_callback] *)

(** [" ".join(link.split("/")[3].split("-")).capitalize().strip()]. *)
Definition link_name (link : string) : outcome string :=
  match list_index (PyStr.split "/" link) 3 with
  | Some seg =>
      Ret (PyStr.strip (PyStr.capitalize (PyStr.join " " (PyStr.split "-" seg))))
  | None => Raise list_index_error
  end.

(** The numbered lines of the reply, [counter] being the number of the
    first of [links]. *)
Fixpoint link_lines (counter : nat) (links : list string) (message : string)
    : outcome string :=
  match links with
  | [] => Ret message
  | link :: rest =>
      match link_name link with
      | Raise e => Raise e
      | Ret name =>
          link_lines (S counter) rest
            (message ++ PyStr.of_nat counter ++ ". [" ++ name ++ "](" ++ link ++ ")"
               ++ PyStr.nl)
      end
  end.

Definition handle_callback (env : Env) (query : CallbackQuery) : M unit :=
  asked <- or_raise (reply_to_message (q_message query)) (none_has_no "from_user") ;;
  user_id <- or_raise (from_user asked) (none_has_no "id") ;;
  autorization env user_id ;;
  try_except
    (telegram_call env (EvDelete (q_message query)) ;;
     if String.eqb (q_data query) "cancel" then
       telegram_call env (EvAnswer "❌ Cancelled" false)
     else
       url <- or_raise (list_index (PyStr.split " " (q_data query)) 1) list_index_error ;;
       selection <- or_raise (list_index (PyStr.split " " (q_data query)) 0)
                             list_index_error ;;
       links <- psa_bypasser env url selection ;;
       message <- of_outcome
                    (link_lines 1 links ("**You can download torrent here:**" ++ PyStr.nl)) ;;
       reply env asked message None)
    (fun e =>
       match e with
       | FloodWait _ _ =>
           Some (logger WARNING ("Flood wait: " ++ str e) ;; asyncio_sleep (PyExn e))
       | _ =>
           if is_Exception e
           then Some (logger ERROR (str e) ;; reply env asked (error_text e) None)
           else None
       end).

(** ** A stubbed world

    A PSA page of boxes, a table of shortener chains (exit gate, try2link
    code, final URL), a chat roster and an optional flood limit on
    replies. *)

Module Stub.

Definition page_url : string := "https://psa.pm/tv-show/some-show/".

Record Chain : Type := {
  gate : string;
  code : string;
  final : string
}.

Definition box (href : string) : Soup.node :=
  Soup.Tag "div" [("class", box_class)]
    [ Soup.NavigableString "Download";
      Soup.Tag "a" [("href", href)] [Soup.NavigableString "Torrent"] ].

(** A box with no anchor in it. *)
Definition empty_box : Soup.node :=
  Soup.Tag "div" [("class", box_class)] [Soup.NavigableString "Coming soon"].

Definition go_form (alias : string) : Soup.node :=
  Soup.Tag "div" [("id", "go-link")]
    [ Soup.Tag "form" [("action", "/links/go")]
        [ Soup.Tag "input" [("name", "alias"); ("value", alias)] [];
          Soup.Tag "input" [("name", "token"); ("value", "t0k3n")] [] ] ].

Definition html (text : string) : Response :=
  {| resp_text := text; resp_json := None |}.

Definition http_stub (chains : list Chain) (w : list event) : outcome Response :=
  match last w (EvSleep 0) with
  | EvGet url _ _ =>
      if String.eqb url page_url then Ret (html "PAGE")
      else
        match find (fun c => String.eqb (gate c) url) chains with
        | Some c => Ret (html ("<a href=https://try2link.com/" ++ code c ++ "/ >"))
        | None =>
            match Re.drop_prefix "https://try2link.com/" url with
            | Some alias => Ret (html ("FORM " ++ alias))
            | None => Raise (LibraryError "404 Client Error")
            end
        end
  | EvPost _ _ ((Some _, Some alias) :: _) =>
      match find (fun c => String.eqb (code c) alias) chains with
      | Some c => Ret {| resp_text := "{}"; resp_json := Some [("url", final c)] |}
      | None => Ret {| resp_text := "Bad Request"; resp_json := None |}
      end
  | _ => Raise (LibraryError "connection refused")
  end.

Definition parse_stub (boxes : list Soup.node) (text : string) : list Soup.node :=
  if String.eqb text "PAGE" then [Soup.Tag "html" [] boxes]
  else
    match Re.drop_prefix "FORM " text with
    | Some alias => [Soup.Tag "html" [] [go_form alias]]
    | None => []
    end.

Definition telegram_stub (roster : list Z) (flood : option Z) (w : list event)
    : option exn :=
  match last w (EvSleep 0) with
  | EvGetChatMember _ user_id =>
      if existsb (Z.eqb user_id) roster then None
      else Some (UserNotParticipant "Telegram says: [400 USER_NOT_PARTICIPANT]")
  | EvReply _ _ _ =>
      match flood with
      | Some seconds => Some (FloodWait seconds "Telegram says: [420 FLOOD_WAIT_X]")
      | None => None
      end
  | _ => None
  end.

Definition world (boxes : list Soup.node) (chains : list Chain)
    (roster : list Z) (flood : option Z) : Env :=
  {| CHAT := "@psa_users";
     time_time := fun w => (1700000000 + Z.of_nat (length w))%Z;
     http := http_stub chains;
     parse_html := parse_stub boxes;
     telegram := telegram_stub roster flood |}.

(** Two episodes of one show and a film. *)
Definition episode2 : Chain :=
  {| gate := "https://psa.pm/exit/101"; code := "e2";
     final := "https://dl.example/show-720p-e02" |}.
Definition episode1 : Chain :=
  {| gate := "https://psa.pm/exit/102"; code := "e1";
     final := "https://dl.example/show-720p-e01" |}.
Definition film : Chain :=
  {| gate := "https://psa.pm/exit/103"; code := "f1";
     final := "https://dl.example/film-1080p-x265" |}.

Definition chains : list Chain := [episode2; episode1; film].

Definition boxes : list Soup.node :=
  [box (gate episode2); empty_box; box (gate episode1); box (gate film)].

Definition alice : Z := 11.
Definition mallory : Z := 66.

Definition env : Env := world boxes chains [alice] None.
Definition episodes : Env := world [box (gate episode2); box (gate episode1)] chains [alice] None.
Definition flooded : Env := world boxes chains [alice] (Some 5%Z).

Definition message_from (user : Z) (text : string) : Message :=
  {| message_id := 1; from_user := Some user; msg_text := Some text |}.

(** The press of a menu button by [presser], the menu having been sent in
    reply to a message of [asker]. *)
Definition press (presser asker : Z) (data : string) : CallbackQuery :=
  {| q_from_user := presser;
     q_data := data;
     q_message :=
       {| menu_id := 2;
          reply_to_message := Some (message_from asker page_url) |} |}.

End Stub.

(** ** Notions the properties are stated with *)

(** The links of the page that resolve, in page order, with the trace
    their resolution leaves: the results of [resolve] box after box, an
    exception dropping the box. *)
Fixpoint resolve_all (env : Env) (soup : list Soup.node) (w : list event)
    : list string * list event :=
  match soup with
  | [] => ([], w)
  | link :: rest =>
      match resolve env link w with
      | (Ret result, w') =>
          let (links, w'') := resolve_all env rest w' in (result :: links, w'')
      | (Raise _, w') => resolve_all env rest w'
      end
  end.

(** The boxes of the page fetched by [psa_bypasser]. *)
Definition page_boxes (env : Env) (r : Response) : list Soup.node :=
  Soup.find_all_class box_class (parse_html env (resp_text r)).

(** The option a button stands for: its label and the selection code
    [handle_callback] reads from its data, [data.split(" ")[0]]. *)
Definition button_option (b : Button) : string * string :=
  (btn_text b, hd EmptyString (PyStr.split " " (callback_data b))).

(** The option set of a menu, row by row; [None] when no menu is sent. *)
Definition menu_options (menu : outcome (option (string * Markup)))
    : outcome (option (list (list (string * string)))) :=
  match menu with
  | Ret (Some (_, keyboard)) => Ret (Some (map (map button_option) keyboard))
  | Ret None => Ret None
  | Raise e => Raise e
  end.

Definition resolution_options : list (string * string) :=
  [("🔵 720P", "720p"); ("🟠 1080P", "1080p"); ("🔴 2160P", "2160p")].

Definition latest_options : list (string * string) :=
  [("🔵 Latest", "l720p"); ("🟠 Latest", "l1080p"); ("🔴 Latest", "l2160p")].

Definition cancel_options : list (string * string) := [("❌ Cancel", "cancel")].

(** The option set as a table over the segment after the host. *)
Definition options_of_segment (segment : outcome string)
    : outcome (option (list (list (string * string)))) :=
  match segment with
  | Ret seg =>
      if String.eqb seg "movie" then
        Ret (Some [resolution_options; cancel_options])
      else if String.eqb seg "tv-show" then
        Ret (Some [resolution_options; latest_options; cancel_options])
      else Ret None
  | Raise e => Raise e
  end.

(** The name and value of an [<input>]. *)
Definition input_pair (input : Soup.node) : option string * option string :=
  (Soup.get "name" input, Soup.get "value" input).

(** The three requests of the two-stage resolver. *)
Definition scrape_request (url : string) : event := EvGet url [] scrape_headers.

Definition gate_request (gate : string) (time : Z) : event :=
  EvGet gate [("d", (time + 240)%Z)] [("Referer", "https://newforex.online/")].

Definition go_request (gate : string) (form : Soup.node) : event :=
  EvPost go_endpoint (go_headers gate) (form_data (Soup.find_all_name "input" form)).

(** Whether the trace holds a sleep of [seconds]. *)
Definition slept (seconds : Z) (w : list event) : bool :=
  existsb (fun ev => match ev with
                     | EvSleep s => Z.eqb s seconds
                     | _ => false
                     end) w.

(** The replies of a trace that carry a keyboard, and those that carry an
    error text. *)
Definition menus_sent (w : list event) : list string :=
  flat_map (fun ev => match ev with
                      | EvReply _ text (Some _) => [text]
                      | _ => []
                      end) w.

Definition error_replies (w : list event) : list string :=
  flat_map (fun ev => match ev with
                      | EvReply _ text None =>
                          if String.prefix "**⚠️ Error:**" text then [text] else []
                      | _ => []
                      end) w.

(** The sender of the message the menu of a query replies to. *)
Definition asker (query : CallbackQuery) : option Z :=
  match reply_to_message (q_message query) with
  | Some asked => from_user asked
  | None => None
  end.

(** The kinds of call a trace is sorted by. *)
Definition is_roster_query (ev : event) : bool :=
  match ev with
  | EvGetChatMember _ _ => true
  | _ => false
  end.

(** The calls of the resolver: its requests and its dwell of 7 seconds. *)
Definition is_resolver_call (ev : event) : bool :=
  match ev with
  | EvGet _ _ _ | EvPost _ _ _ => true
  | EvSleep seconds => Z.eqb seconds 7
  | _ => false
  end.

Definition is_sleep (ev : event) : bool :=
  match ev with
  | EvSleep _ => true
  | _ => false
  end.

Definition no_sleep (ev : event) : Prop := is_sleep ev = false.

(** No sleep but the dwell of the resolver. *)
Definition only_dwell (ev : event) : Prop :=
  is_sleep ev = false \/ ev = EvSleep 7.

Definition resolver_call (ev : event) : Prop := is_resolver_call ev = true.

Definition no_roster_query (ev : event) : Prop := is_roster_query ev = false.

(** A computation only adds to the trace, and what it adds satisfies
    [P]. *)
Definition emits {A : Type} (P : event -> Prop) (c : M A) : Prop :=
  forall w, exists added, snd (c w) = (w ++ added)%list /\ Forall P added.

(** The title of a link as the hyphen-joined words of the segment after
    the host, the last one dropped. *)
Definition title_prefix (link : string) : outcome string :=
  match list_index (PyStr.split "/" link) 3 with
  | Some seg => Ret (PyStr.join "-" (removelast (PyStr.split "-" seg)))
  | None => Raise list_index_error
  end.

(** ** Notions for the further properties *)

(** A Telegram client that raises nothing. *)
Definition quiet (env : Env) : Prop := forall w, telegram env w = None.

(** The calls [handle_message] may make on [message]: the roster query
    and replies to [message] itself. *)
Definition chat_call (message : Message) (ev : event) : Prop :=
  match ev with
  | EvGetChatMember _ _ => True
  | EvReply to _ _ => to = message
  | _ => False
  end.

(** The replies the loop of [handle_message] sends for [links] when no
    call raises: a menu per link whose segment has one, up to the first
    link without a segment, which gets the error reply and ends the
    loop. *)
Fixpoint menu_replies (message : Message) (links : list string) : list event :=
  match links with
  | [] => []
  | link :: rest =>
      match selection_menu link with
      | Raise e => [EvReply message (error_text e) None]
      | Ret (Some (caption, keyboard)) =>
          EvReply message caption (Some keyboard) :: menu_replies message rest
      | Ret None => menu_replies message rest
      end
  end.

(** The stubbed world with a Telegram client that raises nothing. *)
Definition quiet_world : Env :=
  {| CHAT := "@psa_users";
     time_time := fun w => (1700000000 + Z.of_nat (length w))%Z;
     http := Stub.http_stub Stub.chains;
     parse_html := Stub.parse_stub Stub.boxes;
     telegram := fun _ => None |}.

(** The stubbed world with a parser that finds nothing in any page. *)
Definition bare_world : Env :=
  {| CHAT := "@psa_users";
     time_time := fun w => (1700000000 + Z.of_nat (length w))%Z;
     http := Stub.http_stub Stub.chains;
     parse_html := fun _ => [];
     telegram := fun _ => None |}.

(** The first lines of the list sent by [handle_callback]. *)
Definition links_header : string :=
  ("**You can download torrent here:**" ++ PyStr.nl)%string.

(** Whether the character [c] occurs in [s]. *)
Fixpoint occurs (c : ascii) (s : string) : bool :=
  match s with
  | EmptyString => false
  | String a rest => Ascii.eqb a c || occurs c rest
  end.

(** The selection codes of the buttons. *)
Definition selection_codes : list string :=
  ["720p"; "1080p"; "2160p"; "l720p"; "l1080p"; "l2160p"]%string.

(** No call of the resolver: no HTTP request and no dwell. *)
Definition no_resolver_call (ev : event) : Prop := is_resolver_call ev = false.

(** [l] is [l'] with some elements left out, the order kept. *)
Inductive subsequence {A : Type} : list A -> list A -> Prop :=
| subsequence_nil : forall l', subsequence [] l'
| subsequence_keep : forall x l l', subsequence l l' -> subsequence (x :: l) (x :: l')
| subsequence_drop : forall x l l', subsequence l l' -> subsequence l (x :: l').

(** Whether [link.split("/")[3]] exists. *)
Definition has_segment (link : string) : bool :=
  match list_index (PyStr.split "/" link) 3 with
  | Some _ => true
  | None => false
  end.

(** The name [handle_callback] shows for a link that has the segment. *)
Definition shown_name (link : string) : string :=
  match link_name link with
  | Ret name => name
  | Raise _ => EmptyString
  end.

(** The line of the list for the link numbered [counter]. *)
Definition numbered_line (numbered : nat * string) : string :=
  let (counter, link) := numbered in
  (PyStr.of_nat counter ++ ". [" ++ shown_name link ++ "](" ++ link ++ ")"
     ++ PyStr.nl)%string.

(** The lines for [links], numbered from [counter] on. *)
Definition numbered_lines (counter : nat) (links : list string) : string :=
  String.concat EmptyString
    (map numbered_line (combine (seq counter (length links)) links)).

(** The number of sleeps in a trace. *)
Definition dwells (w : list event) : nat := length (filter is_sleep w).

(** A computation that takes at most [n] sleeps, and exactly [n] when it
    returns. *)
Definition costs {A : Type} (n : nat) (c : M A) : Prop :=
  forall w,
    exists added,
      snd (c w) = (w ++ added)%list
      /\ dwells added <= n
      /\ (forall a, fst (c w) = Ret a -> dwells added = n).

(** The value the posted data hold for [key]: [data.get(key)]. *)
Definition form_lookup (key : option string)
    (data : list (option string * option string)) : option (option string) :=
  option_map snd (find (fun kv => option_string_eqb (fst kv) key) data).

(** Whether an [<input>] has the name [key]. *)
Definition named (key : option string) (input : Soup.node) : bool :=
  option_string_eqb (Soup.get "name" input) key.

(** ** Properties of the scan of [psa_bypasser] *)

Local Open Scope list_scope.

Section Scan.

Variable env : Env.
Variable selection : string.

Lemma scan_cons_raise (link : Soup.node) (rest : list Soup.node)
    (items : list string) (w w' : list event) (e : exn) :
  iteration env selection items link w = (Raise e, w') ->
  scan env selection (link :: rest) items w = scan env selection rest items w'.
Proof.
  intros Hit. simpl. rewrite Hit. reflexivity.
Qed.

Lemma iteration_resolve_raise (link : Soup.node) (items : list string)
    (w w' : list event) (e : exn) :
  resolve env link w = (Raise e, w') ->
  iteration env selection items link w = (Raise e, w').
Proof.
  intros Hres. unfold iteration, bind. rewrite Hres. reflexivity.
Qed.

Lemma iteration_resolve_ret (link : Soup.node) (items : list string)
    (w w' : list event) (result : string) :
  resolve env link w = (Ret result, w') ->
  iteration env selection items link w = (select selection items result, w').
Proof.
  intros Hres. unfold iteration, bind. rewrite Hres. reflexivity.
Qed.

(** The loop always comes to its end with a list: no exception leaves
    it. *)
Lemma scan_total (soup : list Soup.node) :
  forall (items : list string) (w : list event),
    exists batch w', scan env selection soup items w = (Ret batch, w').
Proof.
  induction soup as [| link rest IH]; intros items w.
  - exists items, w. reflexivity.
  - simpl. destruct (iteration env selection items link w) as [[[result | |] | e] w'].
    + apply IH.
    + apply IH.
    + exists items, w'. reflexivity.
    + apply IH.
Qed.

(** The loop only adds to the list it starts from. *)
Lemma scan_extends (soup : list Soup.node) :
  forall (items batch : list string) (w w' : list event),
    scan env selection soup items w = (Ret batch, w') ->
    exists added, batch = (items ++ added)%list.
Proof.
  induction soup as [| link rest IH]; intros items batch w w' Hscan.
  - inversion Hscan. exists []. now rewrite app_nil_r.
  - simpl in Hscan.
    destruct (iteration env selection items link w) as [[[result | |] | e] w1].
    + destruct (IH _ _ _ _ Hscan) as [added ->].
      exists (result :: added). now rewrite <- app_assoc.
    + eauto.
    + inversion Hscan. exists []. now rewrite app_nil_r.
    + eauto.
Qed.

End Scan.

(** A selection code with no "latest" mark takes or leaves a link on the
    substring test alone. *)
Lemma select_plain (first : ascii) (code : string) (items : list string)
    (result : string) :
  first <> "l"%char ->
  select (String first code) items result =
  Ret (if PyStr.contains (String first code) result then Append result else Skip).
Proof.
  intros Hfirst. unfold select.
  destruct (Ascii.eqb_spec first "l") as [-> | _]; [contradiction |].
  simpl andb. cbv iota.
  destruct (PyStr.contains (String first code) result); reflexivity.
Qed.

Lemma scan_plain (env : Env) (first : ascii) (code : string) :
  first <> "l"%char ->
  forall (soup : list Soup.node) (items : list string) (w : list event),
    scan env (String first code) soup items w =
    (Ret (items ++ filter (PyStr.contains (String first code))
                          (fst (resolve_all env soup w)))%list,
     snd (resolve_all env soup w)).
Proof.
  intros Hfirst soup.
  induction soup as [| link rest IH]; intros items w.
  - simpl. now rewrite app_nil_r.
  - simpl. destruct (resolve env link w) as [[result | e] w1] eqn:Hres.
    + rewrite (iteration_resolve_ret _ _ _ _ _ _ _ Hres).
      rewrite (select_plain _ _ _ _ Hfirst).
      destruct (resolve_all env rest w1) as [links w2] eqn:Hall.
      simpl fst. simpl snd. simpl filter.
      destruct (PyStr.contains (String first code) result).
      * rewrite IH, Hall. simpl. now rewrite <- app_assoc.
      * rewrite IH, Hall. reflexivity.
    + rewrite (iteration_resolve_raise _ _ _ _ _ _ _ Hres).
      apply IH.
Qed.

(** [psa_bypasser] once the page is fetched: the scan from the empty list,
    then the test on its length. *)
Lemma psa_bypasser_fetched (env : Env) (psa_url selection : string)
    (w : list event) (r : Response) :
  http env (w ++ [EvGet psa_url [] []]) = Ret r ->
  psa_bypasser env psa_url selection w =
  match scan env selection (page_boxes env r) [] (w ++ [EvGet psa_url [] []]) with
  | (Ret [], w') => (Raise no_results, w')
  | (Ret items, w') => (Ret items, w')
  | (Raise e, w') => (Raise e, w')
  end.
Proof.
  intros Hget. unfold psa_bypasser, bind, client_get, http_call.
  rewrite Hget. fold (page_boxes env r).
  destruct (scan env selection (page_boxes env r) [] (w ++ [EvGet psa_url [] []]))
    as [[items | e] w'].
  - destruct items; reflexivity.
  - reflexivity.
Qed.

Lemma psa_bypasser_not_fetched (env : Env) (psa_url selection : string)
    (w : list event) (e : exn) :
  http env (w ++ [EvGet psa_url [] []]) = Raise e ->
  psa_bypasser env psa_url selection w = (Raise e, (w ++ [EvGet psa_url [] []])%list).
Proof.
  intros Hget. unfold psa_bypasser, bind, client_get, http_call.
  now rewrite Hget.
Qed.

(** What a "latest" code decides on a link depends on the links already
    kept through their number only. *)
Lemma select_reads_only_the_length (selection result : string)
    (items items' : list string) :
  length items = length items' ->
  select selection items result = select selection items' result.
Proof.
  intros Hlen. unfold select. now rewrite Hlen.
Qed.

Lemma prefix_cons_inv (c : ascii) (s r : string) :
  String.prefix (String c s) r = true ->
  exists r', r = String c r' /\ String.prefix s r' = true.
Proof.
  destruct r as [| a r']; simpl; [discriminate |].
  destruct (ascii_dec c a) as [-> | _]; [| discriminate].
  intros Hpre. now exists r'.
Qed.

Lemma contains_of_prefix (s r : string) :
  String.prefix s r = true -> PyStr.contains s r = true.
Proof.
  intros Hpre. destruct r; cbn [PyStr.contains]; now rewrite Hpre.
Qed.

Lemma contains_cons (s : string) (c : ascii) (r : string) :
  PyStr.contains s r = true -> PyStr.contains s (String c r) = true.
Proof.
  intros Hin. cbn [PyStr.contains]. rewrite Hin.
  now destruct (String.prefix s (String c r)).
Qed.

(** A link that contains a code contains the code less its first
    character. *)
Lemma contains_tail (c : ascii) (s r : string) :
  PyStr.contains (String c s) r = true -> PyStr.contains s r = true.
Proof.
  induction r as [| a r IH]; intros Hin.
  - discriminate Hin.
  - cbn [PyStr.contains] in Hin.
    destruct (String.prefix (String c s) (String a r)) eqn:Hpre.
    + destruct (prefix_cons_inv _ _ _ Hpre) as (r' & Heq & Hpre').
      injection Heq as -> ->.
      now apply contains_cons, contains_of_prefix.
    + now apply contains_cons, IH.
Qed.

(** The rule of a "latest" code as the code has it: a link without the
    remainder is left out; a link with it is kept when nothing is kept
    yet, and otherwise when its title is found in the one character of
    the link itself at the position given by the number of kept links. *)
Lemma select_latest (remainder : string) (items : list string) (result : string) :
  select (String "l" remainder) items result =
  if PyStr.contains remainder result then
    match current_title result with
    | Raise e => Raise e
    | Ret current =>
        match items with
        | [] => Ret (Append result)
        | _ :: _ =>
            match PyStr.index result (length items - 1) with
            | None => Raise string_index_error
            | Some ch =>
                if PyStr.contains current ch then Ret (Append result) else Ret Break
            end
        end
    end
  else Ret Skip.
Proof.
  unfold select. cbn [Ascii.eqb Bool.eqb andb PyStr.tail].
  destruct (PyStr.contains remainder result) eqn:Hrem.
  - destruct (current_title result); [| reflexivity].
    destruct items; reflexivity.
  - destruct (PyStr.contains (String "l" remainder) result) eqn:Hall; [| reflexivity].
    apply contains_tail in Hall. congruence.
Qed.

(** Every link a "latest" code keeps contains the remainder of the
    code. *)
Lemma scan_latest_keeps_matching (env : Env) (remainder : string)
    (soup : list Soup.node) :
  forall (items batch : list string) (w w' : list event),
    Forall (fun link => PyStr.contains remainder link = true) items ->
    scan env (String "l" remainder) soup items w = (Ret batch, w') ->
    Forall (fun link => PyStr.contains remainder link = true) batch.
Proof.
  induction soup as [| link rest IH]; intros items batch w w' Hitems Hscan.
  - inversion Hscan. now subst.
  - simpl in Hscan.
    destruct (resolve env link w) as [[result | e] w1] eqn:Hres.
    + rewrite (iteration_resolve_ret _ _ _ _ _ _ _ Hres), select_latest in Hscan.
      destruct (PyStr.contains remainder result) eqn:Hrem; [| eauto].
      destruct (current_title result) as [current | e]; [| eauto].
      assert (Hkept : Forall (fun link => PyStr.contains remainder link = true)
                        (items ++ [result])).
      { apply Forall_app. split; [assumption | now constructor]. }
      destruct items as [| item items']; [eauto |].
      destruct (PyStr.index result (length (item :: items') - 1)) as [ch |]; [| eauto].
      destruct (PyStr.contains current ch); [eauto |].
      inversion Hscan. now subst.
    + rewrite (iteration_resolve_raise _ _ _ _ _ _ _ Hres) in Hscan. eauto.
Qed.

(** C8: a box of the page whose resolution raises, whatever the exception,
    is passed over by the scan of [psa_bypasser]: the scan goes on with
    the next box, from the trace the failed resolution left and with the
    links kept so far. *)
Theorem scan_skips_link_that_fails_to_resolve (env : Env) (selection : string)
    (link : Soup.node) (rest : list Soup.node) (items : list string)
    (w w' : list event) (e : exn) :
  resolve env link w = (Raise e, w') ->
  scan env selection (link :: rest) items w = scan env selection rest items w'.
Proof.
  intros Hres. apply scan_cons_raise with (e := e).
  now apply iteration_resolve_raise.
Qed.

Lemma scan_skips_link_that_fails_to_resolve_witness :
  resolve Stub.env Stub.empty_box [] = (Raise (none_has_no "get"), [])
  /\ scan Stub.env "720p" [Stub.empty_box; Stub.box (Stub.gate Stub.episode1)] [] []
     = scan Stub.env "720p" [Stub.box (Stub.gate Stub.episode1)] [] [].
Proof.
  split.
  - reflexivity.
  - apply (scan_skips_link_that_fails_to_resolve Stub.env "720p" Stub.empty_box
             [Stub.box (Stub.gate Stub.episode1)] [] [] [] (none_has_no "get")).
    reflexivity.
Defined.

(** C7: [psa_bypasser] never returns an empty batch.  When the page cannot
    be fetched it raises the error of the fetch; otherwise the scan gives
    a batch, and [psa_bypasser] raises "No results found!" when that batch
    is empty and returns it when it is not. *)
Theorem psa_bypasser_returns_nonempty_or_raises (env : Env)
    (psa_url selection : string) (w : list event) :
  match psa_bypasser env psa_url selection w with
  | (Ret items, _) => items <> []
  | (Raise _, _) => True
  end
  /\
  match http env (w ++ [EvGet psa_url [] []]) with
  | Raise e =>
      psa_bypasser env psa_url selection w = (Raise e, w ++ [EvGet psa_url [] []])
  | Ret r =>
      exists items w',
        scan env selection (page_boxes env r) [] (w ++ [EvGet psa_url [] []])
        = (Ret items, w')
        /\ psa_bypasser env psa_url selection w
           = (match items with
              | [] => Raise no_results
              | _ :: _ => Ret items
              end, w')
  end.
Proof.
  destruct (http env (w ++ [EvGet psa_url [] []])) as [r | e] eqn:Hget.
  - rewrite (psa_bypasser_fetched _ _ selection _ _ Hget).
    destruct (scan_total env selection (page_boxes env r) [] (w ++ [EvGet psa_url [] []]))
      as (items & w' & Hscan).
    rewrite Hscan. split.
    + destruct items; [exact I | discriminate].
    + exists items, w'. split; [reflexivity |]. destruct items; reflexivity.
  - rewrite (psa_bypasser_not_fetched _ _ selection _ _ Hget).
    split; [exact I | reflexivity].
Qed.

(** C5: for a selection code whose first character is not the "latest"
    mark, the batch of [psa_bypasser] is the resolved links of the page
    that contain the code as a substring, in page order; when none does,
    [psa_bypasser] raises "No results found!". *)
Theorem psa_bypasser_plain_selection (env : Env) (psa_url : string)
    (first : ascii) (code : string) (w : list event) :
  first <> "l"%char ->
  match http env (w ++ [EvGet psa_url [] []]) with
  | Raise e =>
      psa_bypasser env psa_url (String first code) w
      = (Raise e, w ++ [EvGet psa_url [] []])
  | Ret r =>
      let (links, w') :=
        resolve_all env (page_boxes env r) (w ++ [EvGet psa_url [] []]) in
      psa_bypasser env psa_url (String first code) w
      = (match filter (PyStr.contains (String first code)) links with
         | [] => Raise no_results
         | batch => Ret batch
         end, w')
  end.
Proof.
  intros Hfirst.
  destruct (http env (w ++ [EvGet psa_url [] []])) as [r | e] eqn:Hget.
  - rewrite (psa_bypasser_fetched _ _ _ _ _ Hget).
    rewrite (scan_plain env first code Hfirst).
    destruct (resolve_all env (page_boxes env r) (w ++ [EvGet psa_url [] []]))
      as [links w'].
    simpl fst. simpl snd. rewrite app_nil_l.
    destruct (filter (PyStr.contains (String first code)) links); reflexivity.
  - now apply psa_bypasser_not_fetched.
Qed.

Lemma psa_bypasser_plain_selection_witness :
  "7"%char <> "l"%char
  /\ psa_bypasser Stub.env Stub.page_url "720p" []
     = (Ret [Stub.final Stub.episode2; Stub.final Stub.episode1],
        snd (resolve_all Stub.env Stub.boxes [EvGet Stub.page_url [] []])).
Proof.
  split.
  - discriminate.
  - apply (psa_bypasser_plain_selection Stub.env Stub.page_url "7" "20p" []).
    discriminate.
Defined.

(** C1: two episodes of one show follow each other on the page, both
    contain the remainder of the code "l720p" and both have the title
    "show-720p", the title being a substring of the first link; the
    batch is the first episode alone, the scan having stopped at the
    second. *)
Theorem latest_run_stops_inside_one_title :
  fst (resolve_all Stub.episodes
         [Stub.box (Stub.gate Stub.episode2); Stub.box (Stub.gate Stub.episode1)]
         [EvGet Stub.page_url [] []])
  = [Stub.final Stub.episode2; Stub.final Stub.episode1]
  /\ PyStr.contains "720p" (Stub.final Stub.episode2) = true
  /\ PyStr.contains "720p" (Stub.final Stub.episode1) = true
  /\ title_prefix (Stub.final Stub.episode2) = Ret "show-720p"%string
  /\ title_prefix (Stub.final Stub.episode1) = Ret "show-720p"%string
  /\ PyStr.contains "show-720p" (Stub.final Stub.episode2) = true
  /\ fst (psa_bypasser Stub.episodes Stub.page_url "l720p" [])
     = Ret [Stub.final Stub.episode2].
Proof.
  repeat split; vm_compute; reflexivity.
Qed.

(** ** The two-stage resolver *)

Lemma option_string_eqb_eq (a b : option string) :
  option_string_eqb a b = true <-> a = b.
Proof.
  destruct a as [x |], b as [y |]; simpl; try (split; congruence).
  rewrite String.eqb_eq. split; congruence.
Qed.

Lemma dict_set_fresh (d : list (option string * option string))
    (key value : option string) :
  ~ In key (map fst d) -> dict_set d key value = d ++ [(key, value)].
Proof.
  induction d as [| [k v] d IH]; intros Hfresh; simpl.
  - reflexivity.
  - destruct (option_string_eqb k key) eqn:Heq.
    + apply option_string_eqb_eq in Heq. subst k. exfalso. apply Hfresh. now left.
    + rewrite IH; [reflexivity |]. intros Hin. apply Hfresh. now right.
Qed.

Lemma form_data_from (inputs : list Soup.node) :
  forall d : list (option string * option string),
    NoDup (map fst d ++ map (Soup.get "name") inputs) ->
    fold_left
      (fun d input => dict_set d (Soup.get "name" input) (Soup.get "value" input))
      inputs d
    = d ++ map input_pair inputs.
Proof.
  induction inputs as [| input inputs IH]; intros d Hnodup; simpl.
  - now rewrite app_nil_r.
  - rewrite dict_set_fresh.
    + rewrite IH.
      * now rewrite <- app_assoc.
      * rewrite map_app, <- app_assoc. exact Hnodup.
    + simpl in Hnodup. apply NoDup_remove_2 in Hnodup.
      intros Hin. apply Hnodup. apply in_or_app. now left.
Qed.

(** X26: when the inputs of the form have distinct names, the posted data
    are their name/value pairs, one per input and in document order. *)
Lemma form_data_distinct_names (inputs : list Soup.node) :
  NoDup (map (Soup.get "name") inputs) ->
  form_data inputs = map input_pair inputs.
Proof.
  intros Hnodup. unfold form_data. now rewrite form_data_from.
Qed.

(** C6: with the HTTP layer stubbed so that the first stage answers with a
    page naming a try2link code, the gate page holds the [go-link]
    container and the resolution endpoint answers with a JSON object
    holding a ["url"] field, [try2link_scrape] returns that field.  On the
    way it sends, after the GET of the first stage: a GET of the gate with
    the parameter [d] at the current time plus 240, a sleep of 7 seconds,
    and a POST to the resolution endpoint of the name/value pairs of the
    inputs of the container. *)
Theorem try2link_round_trip (env : Env) (url : string) (w : list event)
    (res page answer : Response) (code gate final_url : string)
    (form : Soup.node) (body : list (string * string)) :
  let first_stage := scrape_request url in
  let second_stage := gate_request gate (time_time env (w ++ [first_stage])) in
  let dwell := EvSleep 7 in
  let resolution := go_request gate form in
  http env (w ++ [first_stage]) = Ret res ->
  Re.findall_first (resp_text res) = Some code ->
  strip_slash ("https://try2link.com/" ++ code)%string = Ret gate ->
  http env (w ++ [first_stage; second_stage]) = Ret page ->
  Soup.find_id "go-link" (parse_html env (resp_text page)) = Some form ->
  http env (w ++ [first_stage; second_stage; dwell; resolution]) = Ret answer ->
  resp_json answer = Some body ->
  dict_lookup "url" body = Some final_url ->
  try2link_scrape env (Some url) w
  = (Ret final_url, w ++ [first_stage; second_stage; dwell; resolution]).
Proof.
  intros first_stage second_stage dwell resolution
         Hres Hcode Hgate Hpage Hform Hanswer Hjson Hurl.
  unfold try2link_scrape, client_get, http_call, bind.
  fold (scrape_request url). fold first_stage. rewrite Hres.
  rewrite Hcode. cbn [or_raise ret].
  unfold try2link_bypass, bind, of_outcome. rewrite Hgate.
  unfold now, client_get, http_call.
  change (60 * 4)%Z with 240%Z.
  fold (gate_request gate (time_time env (w ++ [first_stage]))). fold second_stage.
  replace ((w ++ [first_stage]) ++ [second_stage])
    with (w ++ [first_stage; second_stage]) by now rewrite <- app_assoc.
  rewrite Hpage, Hform. cbn [or_raise ret asyncio_sleep].
  unfold client_post, http_call. fold (go_request gate form). fold resolution.
  fold dwell.
  replace (((w ++ [first_stage; second_stage]) ++ [dwell]) ++ [resolution])
    with (w ++ [first_stage; second_stage; dwell; resolution])
    by now rewrite <- !app_assoc.
  rewrite Hanswer. unfold json, dict_get. rewrite Hjson. cbn [or_raise ret].
  rewrite Hurl. reflexivity.
Qed.

Lemma try2link_round_trip_witness :
  try2link_scrape Stub.env (Some (Stub.gate Stub.film)) []
  = (Ret (Stub.final Stub.film),
     [ scrape_request (Stub.gate Stub.film);
       gate_request "https://try2link.com/f1" 1700000001;
       EvSleep 7;
       go_request "https://try2link.com/f1" (Stub.go_form "f1") ]).
Proof.
  apply (try2link_round_trip Stub.env (Stub.gate Stub.film) []
           (Stub.html "<a href=https://try2link.com/f1/ >")
           (Stub.html "FORM f1")
           {| resp_text := "{}"; resp_json := Some [("url", Stub.final Stub.film)] |}
           "f1/" "https://try2link.com/f1" (Stub.final Stub.film)
           (Stub.go_form "f1") [("url", Stub.final Stub.film)]);
    reflexivity.
Defined.

(** ** What the computations add to the trace *)

Section Emits.

Variable P : event -> Prop.

Lemma emits_ret {A : Type} (a : A) : emits P (ret a).
Proof. intros w. exists []. now rewrite app_nil_r. Qed.

Lemma emits_raise {A : Type} (e : exn) : emits P (@raise A e).
Proof. intros w. exists []. now rewrite app_nil_r. Qed.

Lemma emits_of_outcome {A : Type} (o : outcome A) : emits P (of_outcome o).
Proof. intros w. exists []. now rewrite app_nil_r. Qed.

Lemma emits_or_raise {A : Type} (o : option A) (e : exn) : emits P (or_raise o e).
Proof. destruct o; [apply emits_ret | apply emits_raise]. Qed.

Lemma emits_now (env : Env) : emits P (now env).
Proof. intros w. exists []. now rewrite app_nil_r. Qed.

Lemma emits_bind {A B : Type} (c : M A) (k : A -> M B) :
  emits P c -> (forall a, emits P (k a)) -> emits P (bind c k).
Proof.
  intros Hc Hk w. unfold bind.
  destruct (Hc w) as (added & Hw & Hadded).
  destruct (c w) as [[a | e] w1]; simpl in Hw; subst w1.
  - destruct (Hk a (w ++ added)) as (added' & Hw' & Hadded').
    exists (added ++ added'). rewrite Hw', app_assoc.
    split; [reflexivity | now apply Forall_app].
  - now exists added.
Qed.

Lemma emits_try_except {A : Type} (body : M A) (handlers : exn -> option (M A)) :
  emits P body ->
  (forall e handler, handlers e = Some handler -> emits P handler) ->
  emits P (try_except body handlers).
Proof.
  intros Hbody Hhandlers w. unfold try_except.
  destruct (Hbody w) as (added & Hw & Hadded).
  destruct (body w) as [[a | e] w1]; simpl in Hw; subst w1.
  - now exists added.
  - destruct (handlers e) as [handler |] eqn:Hcatch.
    + destruct (Hhandlers e handler Hcatch (w ++ added)) as (added' & Hw' & Hadded').
      exists (added ++ added'). rewrite Hw', app_assoc.
      split; [reflexivity | now apply Forall_app].
    + now exists added.
Qed.

Lemma emits_for_each {A : Type} (l : list A) (body : A -> M unit) :
  (forall x, emits P (body x)) -> emits P (for_each l body).
Proof.
  intros Hbody. induction l as [| x l IH]; simpl.
  - apply emits_ret.
  - apply emits_bind; auto.
Qed.

Lemma emits_telegram_call (env : Env) (ev : event) :
  P ev -> emits P (telegram_call env ev).
Proof.
  intros Hev w. exists [ev]. unfold telegram_call.
  destruct (telegram env (w ++ [ev])); auto.
Qed.

Lemma emits_http_call (env : Env) (ev : event) :
  P ev -> emits P (http_call env ev).
Proof. intros Hev w. exists [ev]. auto. Qed.

Lemma emits_asyncio_sleep (delay : pyval) :
  (forall seconds, delay = PyInt seconds -> P (EvSleep seconds)) ->
  emits P (asyncio_sleep delay).
Proof.
  intros Hsleep. destruct delay as [seconds | e].
  - intros w. exists [EvSleep seconds]. auto.
  - apply emits_raise.
Qed.

Lemma emits_logger (level : log_level) (text : string) :
  P (EvLog level text) -> emits P (logger level text).
Proof. intros Hev w. exists [EvLog level text]. auto. Qed.

End Emits.

Create HintDb emits.
#[local] Hint Resolve emits_ret emits_raise emits_of_outcome emits_or_raise emits_now
  emits_telegram_call emits_http_call emits_asyncio_sleep emits_logger : emits.

Ltac emits_step :=
  match goal with
  | |- emits _ (bind _ _) => apply emits_bind; [| intro]
  | |- emits _ (try_except _ _) => apply emits_try_except; [| intros ? ? ?]
  | |- emits _ (for_each _ _) => apply emits_for_each; intro
  | |- emits _ (http_call _ _) => apply emits_http_call
  | |- emits _ (telegram_call _ _) => apply emits_telegram_call
  | |- emits _ (reply _ _ _ _) => apply emits_telegram_call
  | |- emits _ (asyncio_sleep _) => apply emits_asyncio_sleep; intros ? ?
  | |- emits _ (logger _ _) => apply emits_logger
  | |- emits _ (match ?x with _ => _ end) => destruct x
  | H : match ?e with _ => _ end = Some ?h |- emits _ ?h =>
      destruct e; simpl in H; try discriminate H; injection H as <-
  | |- emits _ _ => solve [auto with emits]
  end.

(** The side conditions on the events themselves. *)
Ltac event_ok :=
  match goal with
  | H : PyExn _ = PyInt _ |- _ => discriminate H
  | H : PyInt _ = PyInt _ |- _ => injection H as <-; event_ok
  | |- only_dwell _ => first [left; reflexivity | right; reflexivity]
  | |- _ => reflexivity
  end.

Ltac emits_auto := repeat emits_step; try event_ok.

(** The scan goes on from the trace its first turn left. *)
Ltac scan_goes_on IH items w added :=
  let added' := fresh "added" in
  let Hw' := fresh "Hw" in
  let Hadded' := fresh "Hadded" in
  destruct (IH items (w ++ added)) as (added' & Hw' & Hadded');
  exists (added ++ added'); rewrite Hw', app_assoc;
  split; [reflexivity | now apply Forall_app].

Section Resolver.

Variable env : Env.

Lemma try2link_bypass_emits (url : string) :
  emits resolver_call (try2link_bypass env url).
Proof.
  unfold try2link_bypass, client_get, client_post, json, dict_get.
  emits_auto.
Qed.

Lemma try2link_scrape_emits (url : option string) :
  emits resolver_call (try2link_scrape env url).
Proof.
  unfold try2link_scrape, client_get.
  emits_auto. apply try2link_bypass_emits.
Qed.

Lemma resolve_emits (link : Soup.node) : emits resolver_call (resolve env link).
Proof.
  unfold resolve. emits_auto. apply try2link_scrape_emits.
Qed.

Lemma iteration_emits (selection : string) (items : list string) (link : Soup.node) :
  emits resolver_call (iteration env selection items link).
Proof.
  unfold iteration. emits_auto. apply resolve_emits.
Qed.

Lemma scan_emits (selection : string) (soup : list Soup.node) :
  forall items, emits resolver_call (scan env selection soup items).
Proof.
  induction soup as [| link rest IH]; intros items w.
  - exists []. now rewrite app_nil_r.
  - simpl. destruct (iteration_emits selection items link w) as (added & Hw & Hadded).
    destruct (iteration env selection items link w) as [[[result | |] | e] w1];
      simpl in Hw; subst w1.
    + scan_goes_on IH (items ++ [result]) w added.
    + scan_goes_on IH items w added.
    + now exists added.
    + scan_goes_on IH items w added.
Qed.

Lemma psa_bypasser_emits (psa_url selection : string) :
  emits resolver_call (psa_bypasser env psa_url selection).
Proof.
  unfold psa_bypasser, client_get.
  emits_auto. apply scan_emits.
Qed.

End Resolver.

Lemma emits_weaken {A : Type} (P Q : event -> Prop) (c : M A) :
  (forall ev, P ev -> Q ev) -> emits P c -> emits Q c.
Proof.
  intros HPQ Hc w. destruct (Hc w) as (added & Hw & Hadded).
  exists added. split; [assumption |]. eapply Forall_impl; eauto.
Qed.

Lemma autorization_trace (env : Env) (user_id : Z) (w : list event) :
  snd (autorization env user_id w) = w ++ [EvGetChatMember (CHAT env) user_id].
Proof.
  unfold autorization, try_except, telegram_call.
  destruct (telegram env (w ++ [EvGetChatMember (CHAT env) user_id])) as [[] |];
    reflexivity.
Qed.

Lemma resolver_call_is_no_roster_query (ev : event) :
  resolver_call ev -> no_roster_query ev.
Proof. unfold resolver_call, no_roster_query. destruct ev; simpl; congruence. Qed.

Lemma resolver_call_only_dwell (ev : event) : resolver_call ev -> only_dwell ev.
Proof.
  unfold resolver_call, only_dwell.
  destruct ev; simpl; try (now left); try discriminate.
  intros Hdwell. apply Z.eqb_eq in Hdwell. subst. now right.
Qed.

(** [handle_message] never sleeps, whatever the Telegram client raises. *)
Lemma handle_message_never_sleeps (env : Env) (message : Message) :
  emits no_sleep (handle_message env message).
Proof.
  unfold handle_message, autorization. emits_auto.
Qed.

(** X27: the only sleeps of [handle_callback] are the dwells of 7 seconds
    of the resolver, whatever the outside world answers. *)
Lemma handle_callback_sleeps_only_to_dwell (env : Env) (query : CallbackQuery) :
  emits only_dwell (handle_callback env query).
Proof.
  unfold handle_callback, autorization. emits_auto.
  eapply emits_weaken; [| apply psa_bypasser_emits].
  apply resolver_call_only_dwell.
Qed.

(** [handle_callback] asks the roster once, first, and about the sender of
    the message the menu replies to. *)
Lemma handle_callback_asks_roster_once (env : Env) (query : CallbackQuery) (w : list event) :
  match reply_to_message (q_message query) with
  | Some asked =>
      match from_user asked with
      | Some user_id =>
          exists rest,
            snd (handle_callback env query w)
            = w ++ EvGetChatMember (CHAT env) user_id :: rest
            /\ Forall no_roster_query rest
      | None => handle_callback env query w = (Raise (none_has_no "id"), w)
      end
  | None => handle_callback env query w = (Raise (none_has_no "from_user"), w)
  end.
Proof.
  unfold handle_callback.
  destruct (reply_to_message (q_message query)) as [asked |]; [| reflexivity].
  destruct (from_user asked) as [user_id |] eqn:Hfrom.
  2: { unfold bind. cbn [or_raise ret raise]. now rewrite Hfrom. }
  unfold bind at 1. cbn [or_raise ret]. unfold bind at 1. rewrite Hfrom. cbn [or_raise ret].
  unfold bind at 1.
  pose proof (autorization_trace env user_id w) as Htrace.
  destruct (autorization env user_id w) as [[[] | e] w1]; simpl in Htrace; subst w1.
  - match goal with
    | |- context [try_except ?b ?h] =>
        assert (Hbody : emits no_roster_query (try_except b h))
    end.
    { emits_auto.
      eapply emits_weaken; [| apply psa_bypasser_emits].
      apply resolver_call_is_no_roster_query. }
    destruct (Hbody (w ++ [EvGetChatMember (CHAT env) user_id])) as (rest & Hw & Hrest).
    exists rest. rewrite Hw, <- app_assoc. now split.
  - exists []. split; [reflexivity | constructor].
Qed.

(** ** The chat handlers *)

Lemma menu_options_of_segment (seg link : string) :
  menu_options (Ret (menu_of_segment seg link)) = options_of_segment (Ret seg).
Proof.
  unfold menu_of_segment, options_of_segment.
  destruct (String.eqb seg "movie"); [reflexivity |].
  destruct (String.eqb seg "tv-show"); reflexivity.
Qed.

Lemma menu_options_selection_menu (link : string) :
  menu_options (selection_menu link) = options_of_segment (type_segment link).
Proof.
  unfold selection_menu.
  destruct (type_segment link) as [seg | e]; [| reflexivity].
  apply menu_options_of_segment.
Qed.

(** C9: the option set of the menu sent for a link is read off the segment
    after the host by a fixed table (three resolutions and cancel for
    ["movie"]; resolutions, latest and cancel for ["tv-show"]; no menu
    otherwise), so two links with the same segment get the same option
    set. *)
Theorem menu_options_depend_only_on_segment (link link' : string) :
  type_segment link = type_segment link' ->
  menu_options (selection_menu link) = options_of_segment (type_segment link)
  /\ menu_options (selection_menu link) = menu_options (selection_menu link').
Proof.
  intros Hseg. split.
  - apply menu_options_selection_menu.
  - rewrite !menu_options_selection_menu. now rewrite Hseg.
Qed.

Lemma menu_options_depend_only_on_segment_witness :
  type_segment "https://psa.pm/tv-show/one/" = type_segment "https://psa.re/tv-show/two/"
  /\ menu_options (selection_menu "https://psa.pm/tv-show/one/")
     = Ret (Some [resolution_options; latest_options; cancel_options])
  /\ menu_options (selection_menu "https://psa.pm/tv-show/one/")
     = menu_options (selection_menu "https://psa.re/tv-show/two/").
Proof.
  split; [reflexivity |].
  apply (menu_options_depend_only_on_segment
           "https://psa.pm/tv-show/one/" "https://psa.re/tv-show/two/").
  reflexivity.
Defined.

(** C10: [handle_callback] does not read who pressed the button.  Two
    callback queries with the same data on the same menu message run the
    same, whoever sent them; and the one roster query of the run is the
    first call, about the sender of the message the menu replies to. *)
Theorem handle_callback_ignores_presser (env : Env) (query query' : CallbackQuery)
    (w : list event) :
  q_data query = q_data query' ->
  q_message query = q_message query' ->
  handle_callback env query w = handle_callback env query' w
  /\ match asker query with
     | Some user_id =>
         exists rest,
           snd (handle_callback env query w)
           = w ++ EvGetChatMember (CHAT env) user_id :: rest
           /\ Forall no_roster_query rest
     | None => exists e, handle_callback env query w = (Raise e, w)
     end.
Proof.
  intros Hdata Hmessage. split.
  - unfold handle_callback. now rewrite Hdata, Hmessage.
  - pose proof (handle_callback_asks_roster_once env query w) as Honce.
    unfold asker.
    destruct (reply_to_message (q_message query)) as [asked |]; [| eauto].
    destruct (from_user asked); eauto.
Qed.

Lemma handle_callback_ignores_presser_witness :
  handle_callback Stub.env (Stub.press Stub.mallory Stub.alice "cancel") []
  = handle_callback Stub.env (Stub.press Stub.alice Stub.alice "cancel") []
  /\ exists rest,
       snd (handle_callback Stub.env (Stub.press Stub.mallory Stub.alice "cancel") [])
       = [] ++ EvGetChatMember "@psa_users" Stub.alice :: rest
       /\ Forall no_roster_query rest.
Proof.
  apply (handle_callback_ignores_presser Stub.env
           (Stub.press Stub.mallory Stub.alice "cancel")
           (Stub.press Stub.alice Stub.alice "cancel") []);
    reflexivity.
Defined.

(** The rejection of [autorization] leaves a handler as it was raised. *)
Lemma autorization_rejects (env : Env) (user_id : Z) (w : list event) (m : string) :
  telegram env (w ++ [EvGetChatMember (CHAT env) user_id]) = Some (UserNotParticipant m) ->
  autorization env user_id w
  = (Raise (Exception_ "You are not allowed to use this bot."),
     w ++ [EvGetChatMember (CHAT env) user_id]).
Proof.
  intros Hroster. unfold autorization, try_except, telegram_call.
  now rewrite Hroster.
Qed.

Lemma handle_message_rejected (env : Env) (message : Message) (user_id : Z)
    (w : list event) (m : string) :
  from_user message = Some user_id ->
  telegram env (w ++ [EvGetChatMember (CHAT env) user_id]) = Some (UserNotParticipant m) ->
  handle_message env message w
  = (Raise (Exception_ "You are not allowed to use this bot."),
     w ++ [EvGetChatMember (CHAT env) user_id]).
Proof.
  intros Hfrom Hroster. unfold handle_message, bind.
  rewrite Hfrom. cbn [or_raise ret].
  now rewrite (autorization_rejects _ _ _ _ Hroster).
Qed.

Lemma handle_callback_rejected (env : Env) (query : CallbackQuery) (asked : Message)
    (user_id : Z) (w : list event) (m : string) :
  reply_to_message (q_message query) = Some asked ->
  from_user asked = Some user_id ->
  telegram env (w ++ [EvGetChatMember (CHAT env) user_id]) = Some (UserNotParticipant m) ->
  handle_callback env query w
  = (Raise (Exception_ "You are not allowed to use this bot."),
     w ++ [EvGetChatMember (CHAT env) user_id]).
Proof.
  intros Hasked Hfrom Hroster. unfold handle_callback, bind.
  rewrite Hasked. cbn [or_raise ret]. rewrite Hfrom. cbn [or_raise ret].
  now rewrite (autorization_rejects _ _ _ _ Hroster).
Qed.

(** [handle_message] asks the roster first, about the sender, and only
    once. *)
Lemma handle_message_asks_roster_first (env : Env) (message : Message)
    (user_id : Z) (w : list event) :
  from_user message = Some user_id ->
  exists rest,
    snd (handle_message env message w)
    = w ++ EvGetChatMember (CHAT env) user_id :: rest
    /\ Forall no_roster_query rest.
Proof.
  intros Hfrom. unfold handle_message.
  unfold bind at 1. rewrite Hfrom. cbn [or_raise ret]. unfold bind at 1.
  pose proof (autorization_trace env user_id w) as Htrace.
  destruct (autorization env user_id w) as [[[] | e] w1]; simpl in Htrace; subst w1.
  - match goal with
    | |- context [bind ?c ?k] =>
        assert (Hbody : emits no_roster_query (bind c k))
    end.
    { emits_auto. }
    destruct (Hbody (w ++ [EvGetChatMember (CHAT env) user_id])) as (rest & Hw & Hrest).
    exists rest. rewrite Hw, <- app_assoc. now split.
  - exists []. split; [reflexivity | constructor].
Qed.

(** C3: a message, and a button press on a menu, of a user who is not on
    the roster: the roster is asked first and the rejection is raised, but
    it leaves the handler as an exception and nothing is sent to the
    user. *)
Theorem rejection_is_not_shown_to_the_user :
  handle_message Stub.env (Stub.message_from Stub.mallory "https://psa.pm/movie/a") []
  = (Raise (Exception_ "You are not allowed to use this bot."),
     [EvGetChatMember "@psa_users" Stub.mallory])
  /\ handle_callback Stub.env
       (Stub.press Stub.mallory Stub.mallory "720p https://psa.pm/movie/a") []
     = (Raise (Exception_ "You are not allowed to use this bot."),
        [EvGetChatMember "@psa_users" Stub.mallory]).
Proof.
  split.
  - apply (handle_message_rejected Stub.env _ Stub.mallory []
             "Telegram says: [400 USER_NOT_PARTICIPANT]"); reflexivity.
  - apply (handle_callback_rejected Stub.env _
             (Stub.message_from Stub.mallory Stub.page_url) Stub.mallory []
             "Telegram says: [400 USER_NOT_PARTICIPANT]"); reflexivity.
Qed.

(** The handler of a caught [FloodWait] hands the exception itself to
    [asyncio.sleep]. *)
Lemma sleep_on_caught_exception (e : exn) (w : list event) :
  asyncio_sleep (PyExn e) w
  = (Raise (TypeError "'<=' not supported between instances of 'FloodWait' and 'int'"),
     w).
Proof. reflexivity. Qed.

(** C2: a reply that raises [FloodWait] with 5 seconds, in [handle_message]
    and in [handle_callback]: no error reply is sent, but no sleep of 5
    seconds takes place either, the handler ending on a [TypeError]. *)
Theorem flood_wait_is_not_slept :
  (let (result, w) :=
     handle_message Stub.flooded
       (Stub.message_from Stub.alice "https://psa.pm/movie/a") [] in
   telegram Stub.flooded w = Some (FloodWait 5 "Telegram says: [420 FLOOD_WAIT_X]")
   /\ result = Raise (TypeError "'<=' not supported between instances of 'FloodWait' and 'int'")
   /\ slept 5 w = false
   /\ error_replies w = [])
  /\
  (let (result, w) :=
     handle_callback Stub.flooded
       (Stub.press Stub.alice Stub.alice ("720p " ++ Stub.page_url)) [] in
   last w (EvSleep 0) = EvLog WARNING "Flood wait: Telegram says: [420 FLOOD_WAIT_X]"
   /\ result = Raise (TypeError "'<=' not supported between instances of 'FloodWait' and 'int'")
   /\ slept 5 w = false
   /\ error_replies w = []).
Proof.
  split; vm_compute; repeat split; reflexivity.
Qed.

Lemma filter_always {A : Type} (l : list A) : filter (fun _ => true) l = l.
Proof.
  induction l as [| x l IH]; simpl; [reflexivity | now rewrite IH].
Qed.

(** Once the message holds the host pattern, every token of it is taken
    for a link, and the tokens are cut at spaces and newlines only. *)
Lemma extract_links_keeps_every_token (text : string) :
  Re.search_psa (PyStr.lower text) = true ->
  extract_links text
  = PyStr.split " " (PyStr.replace PyStr.nl " " (PyStr.lower text)).
Proof.
  intros Hhost. unfold extract_links. rewrite Hhost.
  change (PyStr.and_ "," PyStr.nl) with PyStr.nl.
  apply filter_always.
Qed.

(** C4: three messages of a user on the roster.  Two links joined by a
    comma get one menu, for the two of them as one link; a link after a
    plain word gets no menu but an error reply; a token that does not hold
    the host pattern gets a menu. *)
Theorem links_of_a_message_are_not_the_matching_tokens :
  (let w := snd (handle_message Stub.env
                   (Stub.message_from Stub.alice
                      "https://psa.pm/movie/a,https://psa.pm/movie/b") []) in
   menus_sent w
   = [("**Choose a resolution for:**" ++ PyStr.nl
        ++ "https://psa.pm/movie/a,https://psa.pm/movie/b")%string])
  /\
  (let w := snd (handle_message Stub.env
                   (Stub.message_from Stub.alice "see https://psa.pm/movie/x") []) in
   menus_sent w = []
   /\ error_replies w = ["**⚠️ Error:** list index out of range"%string])
  /\
  (let w := snd (handle_message Stub.env
                   (Stub.message_from Stub.alice "https://psa.pm/ a/b/c/movie") []) in
   Re.search_psa "a/b/c/movie" = false
   /\ menus_sent w
      = [("**Choose a resolution for:**" ++ PyStr.nl ++ "a/b/c/movie")%string]).
Proof.
  vm_compute. repeat split; reflexivity.
Qed.

(** ** More on the chat handlers *)

Lemma telegram_call_quiet (env : Env) (ev : event) (w : list event) :
  quiet env -> telegram_call env ev w = (Ret tt, w ++ [ev]).
Proof. intros Hquiet. unfold telegram_call. now rewrite Hquiet. Qed.

Lemma autorization_accepts (env : Env) (user_id : Z) (w : list event) :
  telegram env (w ++ [EvGetChatMember (CHAT env) user_id]) = None ->
  autorization env user_id w = (Ret tt, w ++ [EvGetChatMember (CHAT env) user_id]).
Proof.
  intros Hroster. unfold autorization, try_except, telegram_call.
  now rewrite Hroster.
Qed.

Lemma autorization_lets_through (env : Env) (user_id : Z) (w : list event) (e : exn) :
  telegram env (w ++ [EvGetChatMember (CHAT env) user_id]) = Some e ->
  (forall m, e <> UserNotParticipant m) ->
  autorization env user_id w = (Raise e, w ++ [EvGetChatMember (CHAT env) user_id]).
Proof.
  intros Hroster Hother. unfold autorization, try_except, telegram_call.
  rewrite Hroster. destruct e; try reflexivity.
  now destruct (Hother msg).
Qed.

(** X1: a message of a roster member that does not hold the host pattern
    gets the roster query and nothing else: no reply, no error. *)
Theorem handle_message_ignores_other_messages (env : Env) (message : Message)
    (user_id : Z) (text : string) (w : list event) :
  from_user message = Some user_id ->
  msg_text message = Some text ->
  telegram env (w ++ [EvGetChatMember (CHAT env) user_id]) = None ->
  Re.search_psa (PyStr.lower text) = false ->
  handle_message env message w
  = (Ret tt, w ++ [EvGetChatMember (CHAT env) user_id]).
Proof.
  intros Hfrom Htext Hroster Hhost. unfold handle_message, bind.
  rewrite Hfrom. cbn [or_raise ret].
  rewrite (autorization_accepts _ _ _ Hroster), Htext. cbn [or_raise ret].
  now rewrite Hhost.
Qed.

Lemma handle_message_ignores_other_messages_witness :
  handle_message Stub.env (Stub.message_from Stub.alice "Good morning, everyone") []
  = (Ret tt, [] ++ [EvGetChatMember "@psa_users" Stub.alice]).
Proof.
  apply (handle_message_ignores_other_messages Stub.env _ Stub.alice
           "Good morning, everyone" []); reflexivity.
Defined.

(** X2: whatever the outside world answers, [handle_message] makes no
    call but the roster query and replies to the incoming message: no
    HTTP request, no sleep, no log, no reply to another message. *)
Theorem handle_message_only_replies (env : Env) (message : Message) :
  emits (chat_call message) (handle_message env message).
Proof.
  unfold handle_message, autorization. emits_auto; exact I.
Qed.

(** X3: an exception of the roster query other than [UserNotParticipant]
    (a [FloodWait], say) leaves both handlers as it is, the query being
    the only call made. *)
Theorem roster_errors_escape_the_handlers (env : Env) (message : Message)
    (query : CallbackQuery) (user_id : Z) (w : list event) (e : exn) :
  from_user message = Some user_id ->
  asker query = Some user_id ->
  telegram env (w ++ [EvGetChatMember (CHAT env) user_id]) = Some e ->
  (forall m, e <> UserNotParticipant m) ->
  handle_message env message w = (Raise e, w ++ [EvGetChatMember (CHAT env) user_id])
  /\ handle_callback env query w = (Raise e, w ++ [EvGetChatMember (CHAT env) user_id]).
Proof.
  intros Hfrom Hasker Hroster Hother. split.
  - unfold handle_message, bind. rewrite Hfrom. cbn [or_raise ret].
    now rewrite (autorization_lets_through _ _ _ _ Hroster Hother).
  - unfold asker in Hasker. unfold handle_callback, bind.
    destruct (reply_to_message (q_message query)) as [asked |]; [| discriminate].
    cbn [or_raise ret]. rewrite Hasker. cbn [or_raise ret].
    now rewrite (autorization_lets_through _ _ _ _ Hroster Hother).
Qed.

Lemma roster_errors_escape_the_handlers_witness :
  let busy : Env :=
    {| CHAT := "@psa_users";
       time_time := fun _ => 0%Z;
       http := fun _ => Raise (LibraryError "offline");
       parse_html := fun _ => [];
       telegram := fun _ => Some (FloodWait 30 "Telegram says: [420 FLOOD_WAIT_X]") |} in
  let roster := EvGetChatMember "@psa_users" Stub.alice in
  handle_message busy (Stub.message_from Stub.alice "https://psa.pm/movie/a") []
  = (Raise (FloodWait 30 "Telegram says: [420 FLOOD_WAIT_X]"), [] ++ [roster])
  /\ handle_callback busy (Stub.press Stub.mallory Stub.alice "cancel") []
     = (Raise (FloodWait 30 "Telegram says: [420 FLOOD_WAIT_X]"), [] ++ [roster]).
Proof.
  intros busy roster.
  apply (roster_errors_escape_the_handlers busy
           (Stub.message_from Stub.alice "https://psa.pm/movie/a")
           (Stub.press Stub.mallory Stub.alice "cancel") Stub.alice []
           (FloodWait 30 "Telegram says: [420 FLOOD_WAIT_X]"));
    [reflexivity | reflexivity | reflexivity | discriminate].
Defined.

Lemma selection_menu_error (link : string) (e : exn) :
  selection_menu link = Raise e -> e = list_index_error.
Proof.
  unfold selection_menu, type_segment.
  destruct (list_index (PyStr.split "/" link) 3); [discriminate |].
  now intros [= <-].
Qed.

(** The loop of [handle_message] under a quiet client. *)
Lemma menu_loop_quiet (env : Env) (message : Message) (links : list string) :
  quiet env ->
  forall w,
    try_except
      (for_each links
         (fun link =>
            menu <- of_outcome (selection_menu link) ;;
            match menu with
            | Some (caption, keyboard) => reply env message caption (Some keyboard)
            | None => ret tt
            end))
      (fun e =>
         match e with
         | FloodWait _ _ => Some (asyncio_sleep (PyExn e))
         | _ =>
             if is_Exception e
             then Some (reply env message (error_text e) None)
             else None
         end) w
    = (Ret tt, w ++ menu_replies message links).
Proof.
  intros Hquiet. unfold try_except.
  induction links as [| link rest IH]; intros w.
  - simpl. now rewrite app_nil_r.
  - cbn [for_each menu_replies]. unfold bind at 1. unfold bind at 1. unfold of_outcome.
    destruct (selection_menu link) as [[[caption keyboard] |] | e] eqn:Hmenu.
    + unfold reply. rewrite (telegram_call_quiet _ _ _ Hquiet).
      rewrite IH. now rewrite <- app_assoc.
    + unfold ret at 1. apply IH.
    + apply selection_menu_error in Hmenu. subst e.
      cbn [list_index_error is_Exception]. unfold reply.
      now rewrite (telegram_call_quiet _ _ _ Hquiet).
Qed.

(** X4: with a Telegram client that raises nothing, [handle_message] on a
    message holding the host pattern ends normally after the roster query
    and the replies of [menu_replies]: the menus of the tokens in order,
    cut short by one error reply at the first token with fewer than four
    [/]-separated parts. *)
Theorem handle_message_sends_the_menus_in_order (env : Env) (message : Message)
    (user_id : Z) (text : string) (w : list event) :
  quiet env ->
  from_user message = Some user_id ->
  msg_text message = Some text ->
  Re.search_psa (PyStr.lower text) = true ->
  handle_message env message w
  = (Ret tt,
     w ++ EvGetChatMember (CHAT env) user_id
       :: menu_replies message (extract_links text)).
Proof.
  intros Hquiet Hfrom Htext Hhost. unfold handle_message.
  unfold bind at 1. rewrite Hfrom. cbn [or_raise ret].
  unfold bind at 1. rewrite (autorization_accepts _ _ _ (Hquiet _)).
  unfold bind at 1. rewrite Htext. cbn [or_raise ret]. rewrite Hhost. cbn [negb].
  rewrite (menu_loop_quiet env message (extract_links text) Hquiet).
  now rewrite <- app_assoc.
Qed.

Lemma handle_message_sends_the_menus_in_order_witness :
  let message :=
    Stub.message_from Stub.mallory
      "https://psa.pm/movie/a https://psa.re/tv-show/b oops https://psa.pm/movie/c" in
  handle_message quiet_world message []
  = (Ret tt,
     [] ++ EvGetChatMember "@psa_users" Stub.mallory
       :: menu_replies message
            ["https://psa.pm/movie/a"; "https://psa.re/tv-show/b"; "oops";
             "https://psa.pm/movie/c"]%string).
Proof.
  intros message.
  apply (handle_message_sends_the_menus_in_order quiet_world message Stub.mallory
           "https://psa.pm/movie/a https://psa.re/tv-show/b oops https://psa.pm/movie/c" []);
    try reflexivity.
  intros w. reflexivity.
Defined.

(** *** Tokens and callback data *)



(** [replace] of a one-character [old], character by character. *)
Lemma replace_char (c : ascii) (new : string) (a : ascii) (s : string) :
  PyStr.replace (String c EmptyString) new (String a s)
  = if Ascii.eqb a c then (new ++ PyStr.replace (String c EmptyString) new s)%string
    else String a (PyStr.replace (String c EmptyString) new s).
Proof.
  unfold PyStr.replace. cbn [PyStr.replace_from String.prefix String.length Nat.sub].
  destruct (ascii_dec c a) as [-> | Hne].
  - rewrite Ascii.eqb_refl. now destruct s.
  - destruct (Ascii.eqb_spec a c) as [-> | _]; [contradiction | reflexivity].
Qed.



Section Tokens.

Variable sep : ascii.




(** A string without the separator is its own only token. *)
Lemma split_without_separator (s : string) :
  occurs sep s = false -> PyStr.split sep s = [s].
Proof.
  induction s as [| a s IH]; intros Habs; [reflexivity |].
  simpl in Habs. apply orb_false_iff in Habs as [Ha Hs].
  simpl. now rewrite Ha, (IH Hs).
Qed.

(** Two strings without the separator, joined by it, split back into the
    two. *)
Lemma split_pair (code link : string) :
  occurs sep code = false ->
  occurs sep link = false ->
  PyStr.split sep (code ++ String sep link)%string = [code; link].
Proof.
  intros Hcode Hlink.
  induction code as [| a code IH]; simpl.
  - now rewrite Ascii.eqb_refl, (split_without_separator _ Hlink).
  - simpl in Hcode. apply orb_false_iff in Hcode as [Ha Hcode].
    now rewrite Ha, (IH Hcode).
Qed.

End Tokens.


(** X6: the data of a menu button read back by [handle_callback]: for a
    link without a space, as the links of a message are, the data of each
    resolution and latest button split at spaces into the selection code
    of the button and the link. *)
Theorem callback_data_round_trip (link : string) (b : Button) :
  occurs " " link = false ->
  In b (resolution_row link ++ latest_row link) ->
  In (snd (button_option b)) selection_codes
  /\ PyStr.split " " (callback_data b) = [snd (button_option b); link].
Proof.
  intros Hlink Hin. unfold selection_codes, button_option.
  simpl in Hin.
  repeat destruct Hin as [<- | Hin]; try contradiction;
    simpl; rewrite (split_without_separator " " link Hlink); simpl;
    (split; [tauto | reflexivity]).
Qed.

Lemma callback_data_round_trip_witness :
  In "l1080p"%string selection_codes
  /\ PyStr.split " " "l1080p https://psa.pm/tv-show/some-show/"
     = ["l1080p"; "https://psa.pm/tv-show/some-show/"]%string.
Proof.
  apply (callback_data_round_trip "https://psa.pm/tv-show/some-show/"
           {| btn_text := "🟠 Latest";
              callback_data := "l1080p https://psa.pm/tv-show/some-show/" |}).
  - reflexivity.
  - simpl. tauto.
Defined.

(** *** [handle_callback] step by step *)

(** X7: a press on "Cancel" never starts a resolution: whatever the
    outside world answers, the run makes no HTTP request and takes no
    dwell. *)
Theorem cancel_never_resolves (env : Env) (query : CallbackQuery) :
  q_data query = "cancel"%string ->
  emits no_resolver_call (handle_callback env query).
Proof.
  intros Hdata. unfold handle_callback, autorization. rewrite Hdata.
  change (String.eqb "cancel" "cancel") with true. cbv iota.
  emits_auto.
Qed.

Lemma cancel_never_resolves_witness :
  emits no_resolver_call
    (handle_callback Stub.env (Stub.press Stub.mallory Stub.alice "cancel")).
Proof.
  apply (cancel_never_resolves Stub.env (Stub.press Stub.mallory Stub.alice "cancel")).
  reflexivity.
Defined.

(** [handle_callback] up to its [try], for a sender on a quiet client. *)
Lemma handle_callback_enters (env : Env) (query : CallbackQuery) (asked : Message)
    (user_id : Z) (w : list event) :
  quiet env ->
  reply_to_message (q_message query) = Some asked ->
  from_user asked = Some user_id ->
  exists body handlers,
    handle_callback env query w
    = try_except body handlers (w ++ [EvGetChatMember (CHAT env) user_id])
    /\ body
       = (telegram_call env (EvDelete (q_message query)) ;;
          if String.eqb (q_data query) "cancel" then
            telegram_call env (EvAnswer "❌ Cancelled" false)
          else
            url <- or_raise (list_index (PyStr.split " " (q_data query)) 1)
                            list_index_error ;;
            selection <- or_raise (list_index (PyStr.split " " (q_data query)) 0)
                                  list_index_error ;;
            links <- psa_bypasser env url selection ;;
            message <- of_outcome (link_lines 1 links links_header) ;;
            reply env asked message None)
    /\ handlers
       = (fun e =>
            match e with
            | FloodWait _ _ =>
                Some (logger WARNING ("Flood wait: " ++ str e)%string ;;
                      asyncio_sleep (PyExn e))
            | _ =>
                if is_Exception e
                then Some (logger ERROR (str e) ;; reply env asked (error_text e) None)
                else None
            end).
Proof.
  intros Hquiet Hasked Hfrom. eexists. eexists. split; [| split; reflexivity].
  unfold handle_callback.
  unfold bind at 1. rewrite Hasked. cbn [or_raise ret].
  unfold bind at 1. rewrite Hfrom. cbn [or_raise ret].
  unfold bind at 1. rewrite (autorization_accepts _ _ _ (Hquiet _)).
  reflexivity.
Qed.

Lemma no_space_is_not_cancel_with_space (selection url : string) :
  String.eqb (selection ++ String " " url) "cancel" = false \/ occurs " " selection = true.
Proof.
  destruct (occurs " " selection) eqn:Hsel; [now right | left].
  apply String.eqb_neq. intros Heq.
  assert (Hocc : occurs " " (selection ++ String " " url) = true).
  { clear. induction selection as [| a s IH]; simpl.
    - reflexivity.
    - rewrite IH. apply orb_true_r. }
  rewrite Heq in Hocc. discriminate.
Qed.

(** X8: the data of a button split into a selection code and a URL, and
    the resolution gives a batch whose links all have a name: on a quiet
    client the menu is deleted, the batch resolved and the numbered list
    sent as one reply to the asker's message. *)
Theorem handle_callback_sends_the_list (env : Env) (query : CallbackQuery)
    (asked : Message) (user_id : Z) (selection url : string)
    (links : list string) (message : string) (w w' : list event) :
  quiet env ->
  reply_to_message (q_message query) = Some asked ->
  from_user asked = Some user_id ->
  q_data query = (selection ++ String " " url)%string ->
  occurs " " selection = false ->
  occurs " " url = false ->
  psa_bypasser env url selection
    (w ++ [EvGetChatMember (CHAT env) user_id; EvDelete (q_message query)])
  = (Ret links, w') ->
  link_lines 1 links links_header = Ret message ->
  handle_callback env query w = (Ret tt, w' ++ [EvReply asked message None]).
Proof.
  intros Hquiet Hasked Hfrom Hdata Hsel Hurl Hbatch Hlines.
  destruct (handle_callback_enters env query asked user_id w Hquiet Hasked Hfrom)
    as (body & handlers & -> & -> & ->).
  unfold try_except. unfold bind at 1.
  rewrite (telegram_call_quiet _ _ _ Hquiet), <- app_assoc. cbn [app].
  rewrite Hdata.
  destruct (no_space_is_not_cancel_with_space selection url) as [-> | Hbad];
    [| congruence].
  rewrite (split_pair " " _ _ Hsel Hurl). cbn [list_index nth_error or_raise].
  unfold bind at 1. unfold ret at 1. unfold bind at 1. unfold ret at 1.
  unfold bind at 1. rewrite Hbatch.
  unfold bind at 1. unfold of_outcome. rewrite Hlines.
  unfold reply. now rewrite (telegram_call_quiet _ _ _ Hquiet).
Qed.

Lemma handle_callback_sends_the_list_witness :
  let query := Stub.press Stub.alice Stub.mallory ("720p " ++ Stub.page_url) in
  let asked := Stub.message_from Stub.mallory Stub.page_url in
  let links := [Stub.final Stub.episode2; Stub.final Stub.episode1] in
  let w' :=
    snd (psa_bypasser quiet_world Stub.page_url "720p"
           ([] ++ [EvGetChatMember "@psa_users" Stub.mallory; EvDelete (q_message query)])) in
  handle_callback quiet_world query []
  = (Ret tt, w' ++ [EvReply asked (links_header ++ numbered_lines 1 links) None]).
Proof.
  intros query asked links w'.
  apply (handle_callback_sends_the_list quiet_world query asked Stub.mallory
           "720p" Stub.page_url links (links_header ++ numbered_lines 1 links) [] w');
    try reflexivity.
  intros w. reflexivity.
Defined.

(** X9: the same press when the resolution raises an exception of class
    [Exception] other than [FloodWait] ("No results found!", a network
    error): the error is logged and its text is sent to the asker as the
    one reply, and the handler ends normally. *)
Theorem handle_callback_reports_the_error (env : Env) (query : CallbackQuery)
    (asked : Message) (user_id : Z) (selection url : string)
    (e : exn) (w w' : list event) :
  quiet env ->
  reply_to_message (q_message query) = Some asked ->
  from_user asked = Some user_id ->
  q_data query = (selection ++ String " " url)%string ->
  occurs " " selection = false ->
  occurs " " url = false ->
  psa_bypasser env url selection
    (w ++ [EvGetChatMember (CHAT env) user_id; EvDelete (q_message query)])
  = (Raise e, w') ->
  is_Exception e = true ->
  (forall value m, e <> FloodWait value m) ->
  handle_callback env query w
  = (Ret tt, w' ++ [EvLog ERROR (str e); EvReply asked (error_text e) None]).
Proof.
  intros Hquiet Hasked Hfrom Hdata Hsel Hurl Hbatch Hexc Hflood.
  destruct (handle_callback_enters env query asked user_id w Hquiet Hasked Hfrom)
    as (body & handlers & -> & -> & ->).
  unfold try_except. unfold bind at 1.
  rewrite (telegram_call_quiet _ _ _ Hquiet), <- app_assoc. cbn [app].
  rewrite Hdata.
  destruct (no_space_is_not_cancel_with_space selection url) as [-> | Hbad];
    [| congruence].
  rewrite (split_pair " " _ _ Hsel Hurl). cbn [list_index nth_error or_raise].
  unfold bind at 1. unfold ret at 1. unfold bind at 1. unfold ret at 1.
  unfold bind at 1. rewrite Hbatch.
  destruct e as [m | m | m | m | value m | m | m | m |];
    try discriminate Hexc;
    try (now destruct (Hflood value m eq_refl));
    unfold bind, logger, reply; cbn [is_Exception];
    rewrite (telegram_call_quiet _ _ _ Hquiet), <- app_assoc; reflexivity.
Qed.

Lemma handle_callback_reports_the_error_witness :
  let query := Stub.press Stub.alice Stub.mallory ("480p " ++ Stub.page_url) in
  let asked := Stub.message_from Stub.mallory Stub.page_url in
  let w' :=
    snd (psa_bypasser quiet_world Stub.page_url "480p"
           ([] ++ [EvGetChatMember "@psa_users" Stub.mallory; EvDelete (q_message query)])) in
  handle_callback quiet_world query []
  = (Ret tt,
     w' ++ [EvLog ERROR "No results found!";
            EvReply asked "**⚠️ Error:** No results found!" None]).
Proof.
  intros query asked w'.
  apply (handle_callback_reports_the_error quiet_world query asked Stub.mallory
           "480p" Stub.page_url no_results [] w');
    try reflexivity.
  - intros w. reflexivity.
  - discriminate.
Defined.

(** X10: data that hold no space and are not "cancel": the menu is
    deleted, then reading the URL raises [IndexError], which is logged and
    sent to the asker; nothing is resolved. *)
Theorem handle_callback_on_data_without_url (env : Env) (query : CallbackQuery)
    (asked : Message) (user_id : Z) (w : list event) :
  quiet env ->
  reply_to_message (q_message query) = Some asked ->
  from_user asked = Some user_id ->
  q_data query <> "cancel"%string ->
  occurs " " (q_data query) = false ->
  handle_callback env query w
  = (Ret tt,
     w ++ [ EvGetChatMember (CHAT env) user_id;
            EvDelete (q_message query);
            EvLog ERROR "list index out of range";
            EvReply asked (error_text list_index_error) None ]).
Proof.
  intros Hquiet Hasked Hfrom Hcancel Hspace.
  destruct (handle_callback_enters env query asked user_id w Hquiet Hasked Hfrom)
    as (body & handlers & -> & -> & ->).
  unfold try_except. unfold bind at 1.
  rewrite (telegram_call_quiet _ _ _ Hquiet), <- app_assoc. cbn [app].
  apply String.eqb_neq in Hcancel. rewrite Hcancel.
  rewrite (split_without_separator " " _ Hspace).
  cbn [list_index nth_error or_raise]. unfold bind at 1. unfold raise at 1.
  cbn [list_index_error is_Exception]. unfold bind, logger, reply.
  rewrite (telegram_call_quiet _ _ _ Hquiet), <- !app_assoc. reflexivity.
Qed.

Lemma handle_callback_on_data_without_url_witness :
  let query := Stub.press Stub.alice Stub.mallory "2160p" in
  let asked := Stub.message_from Stub.mallory Stub.page_url in
  handle_callback quiet_world query []
  = (Ret tt,
     [] ++ [ EvGetChatMember "@psa_users" Stub.mallory;
             EvDelete (q_message query);
             EvLog ERROR "list index out of range";
             EvReply asked (error_text list_index_error) None ]).
Proof.
  intros query asked.
  apply (handle_callback_on_data_without_url quiet_world query asked Stub.mallory []);
    try reflexivity.
  - intros w. reflexivity.
  - discriminate.
Defined.

(** ** More on [psa_bypasser] *)

Lemma psa_bypasser_ret_inv (env : Env) (psa_url selection : string)
    (w w' : list event) (batch : list string) :
  psa_bypasser env psa_url selection w = (Ret batch, w') ->
  exists r,
    http env (w ++ [EvGet psa_url [] []]) = Ret r
    /\ scan env selection (page_boxes env r) [] (w ++ [EvGet psa_url [] []])
       = (Ret batch, w')
    /\ batch <> [].
Proof.
  intros Hrun.
  destruct (http env (w ++ [EvGet psa_url [] []])) as [r | e] eqn:Hget.
  - exists r. split; [reflexivity |].
    rewrite (psa_bypasser_fetched _ _ selection _ _ Hget) in Hrun.
    destruct (scan env selection (page_boxes env r) [] (w ++ [EvGet psa_url [] []]))
      as [[[| link links] | e] w1]; inversion Hrun; subst.
    split; [reflexivity | discriminate].
  - rewrite (psa_bypasser_not_fetched _ _ selection _ _ Hget) in Hrun. discriminate.
Qed.

(** The link a turn of the loop appends is the link it resolved. *)
Lemma select_append (selection result kept : string) (items : list string) :
  select selection items result = Ret (Append kept) -> kept = result.
Proof.
  unfold select. destruct selection as [| first code]; [discriminate |].
  destruct (Ascii.eqb first "l" && PyStr.contains (PyStr.tail (String first code)) result).
  - destruct (current_title result) as [current | e]; [| discriminate].
    destruct (length items =? 0)%nat; [now intros [= <-] |].
    destruct (0 <? length items)%nat; [| discriminate].
    destruct (PyStr.index result (length items - 1)) as [ch |]; [| discriminate].
    destruct (PyStr.contains current ch); [now intros [= <-] | discriminate].
  - destruct (PyStr.contains (String first code) result);
      [now intros [= <-] | discriminate].
Qed.

Lemma scan_in_page_order (env : Env) (selection : string) (soup : list Soup.node) :
  forall (items batch : list string) (w w' : list event),
    scan env selection soup items w = (Ret batch, w') ->
    exists kept,
      batch = items ++ kept
      /\ subsequence kept (fst (resolve_all env soup w)).
Proof.
  induction soup as [| link rest IH]; intros items batch w w' Hscan.
  - inversion Hscan. exists []. split; [now rewrite app_nil_r | constructor].
  - simpl in Hscan. simpl resolve_all.
    destruct (resolve env link w) as [[result | e] w1] eqn:Hres.
    + rewrite (iteration_resolve_ret _ _ _ _ _ _ _ Hres) in Hscan.
      destruct (resolve_all env rest w1) as [links w2] eqn:Hall. simpl fst.
      destruct (select selection items result) as [[kept | |] | e] eqn:Hsel.
      * apply select_append in Hsel. subst kept.
        destruct (IH _ _ _ _ Hscan) as (more & -> & Hsub). rewrite Hall in Hsub.
        exists (result :: more). split; [now rewrite <- app_assoc |].
        now constructor.
      * destruct (IH _ _ _ _ Hscan) as (more & -> & Hsub). rewrite Hall in Hsub.
        exists more. split; [reflexivity | now constructor].
      * inversion Hscan. exists []. split; [now rewrite app_nil_r | constructor].
      * destruct (IH _ _ _ _ Hscan) as (more & -> & Hsub). rewrite Hall in Hsub.
        exists more. split; [reflexivity | now constructor].
    + rewrite (iteration_resolve_raise _ _ _ _ _ _ _ Hres) in Hscan.
      apply (IH _ _ _ _ Hscan).
Qed.

(** X11: whatever the selection code, the batch [psa_bypasser] returns is
    made of resolved links of the page in page order: it is the list of
    the links that resolve with some of them left out. *)
Theorem psa_bypasser_batch_in_page_order (env : Env) (psa_url selection : string)
    (w w' : list event) (batch : list string) :
  psa_bypasser env psa_url selection w = (Ret batch, w') ->
  exists r,
    http env (w ++ [EvGet psa_url [] []]) = Ret r
    /\ subsequence batch
         (fst (resolve_all env (page_boxes env r) (w ++ [EvGet psa_url [] []]))).
Proof.
  intros Hrun.
  destruct (psa_bypasser_ret_inv _ _ _ _ _ _ Hrun) as (r & Hget & Hscan & _).
  exists r. split; [assumption |].
  destruct (scan_in_page_order _ _ _ _ _ _ _ Hscan) as (kept & -> & Hsub).
  exact Hsub.
Qed.

Lemma psa_bypasser_batch_in_page_order_witness :
  exists r,
    http Stub.env ([] ++ [EvGet Stub.page_url [] []]) = Ret r
    /\ subsequence [Stub.final Stub.film]
         (fst (resolve_all Stub.env (page_boxes Stub.env r)
                 ([] ++ [EvGet Stub.page_url [] []]))).
Proof.
  apply (psa_bypasser_batch_in_page_order Stub.env Stub.page_url "1080p" []
           (snd (psa_bypasser Stub.env Stub.page_url "1080p" []))).
  reflexivity.
Defined.

(** X12: with a "latest" code every link of the batch contains the
    remainder of the code. *)
Theorem latest_batch_contains_remainder (env : Env) (psa_url remainder : string)
    (w w' : list event) (batch : list string) :
  psa_bypasser env psa_url (String "l" remainder) w = (Ret batch, w') ->
  Forall (fun link => PyStr.contains remainder link = true) batch.
Proof.
  intros Hrun.
  destruct (psa_bypasser_ret_inv _ _ _ _ _ _ Hrun) as (r & _ & Hscan & _).
  apply (scan_latest_keeps_matching _ _ _ _ _ _ _ (Forall_nil _) Hscan).
Qed.

Lemma latest_batch_contains_remainder_witness :
  Forall (fun link => PyStr.contains "720p" link = true) [Stub.final Stub.episode2].
Proof.
  apply (latest_batch_contains_remainder Stub.env Stub.page_url "720p" []
           (snd (psa_bypasser Stub.env Stub.page_url "l720p" []))).
  reflexivity.
Defined.

(** The select of the empty code raises. *)
Lemma scan_empty_selection (env : Env) (soup : list Soup.node) :
  forall (items : list string) (w : list event),
    scan env EmptyString soup items w = (Ret items, snd (resolve_all env soup w)).
Proof.
  induction soup as [| link rest IH]; intros items w; [reflexivity |].
  simpl. destruct (resolve env link w) as [[result | e] w1] eqn:Hres.
  - rewrite (iteration_resolve_ret _ _ _ _ _ _ _ Hres). simpl select.
    rewrite IH. now destruct (resolve_all env rest w1).
  - rewrite (iteration_resolve_raise _ _ _ _ _ _ _ Hres). apply IH.
Qed.

(** X13: the empty selection code never gives a batch: once the page is
    fetched, every box is still resolved, each turn of the loop raises at
    [selection[0]], and [psa_bypasser] raises "No results found!". *)
Theorem psa_bypasser_empty_selection (env : Env) (psa_url : string) (w : list event) :
  match http env (w ++ [EvGet psa_url [] []]) with
  | Ret r =>
      psa_bypasser env psa_url EmptyString w
      = (Raise no_results,
         snd (resolve_all env (page_boxes env r) (w ++ [EvGet psa_url [] []])))
  | Raise e =>
      psa_bypasser env psa_url EmptyString w = (Raise e, w ++ [EvGet psa_url [] []])
  end.
Proof.
  destruct (http env (w ++ [EvGet psa_url [] []])) as [r | e] eqn:Hget.
  - rewrite (psa_bypasser_fetched _ _ _ _ _ Hget). now rewrite scan_empty_selection.
  - now apply psa_bypasser_not_fetched.
Qed.

(** A string found in a one-character string has at most one
    character. *)
Lemma contains_in_one_character (s : string) (c : ascii) :
  PyStr.contains s (String c EmptyString) = true -> String.length s <= 1.
Proof.
  destruct s as [| a [| b s]]; simpl; try lia.
  destruct (ascii_dec a c); discriminate.
Qed.

Lemma index_is_one_character (s : string) (i : nat) (ch : string) :
  PyStr.index s i = Some ch -> exists c, ch = String c EmptyString.
Proof.
  unfold PyStr.index. destruct (String.get i s) as [c |]; [| discriminate].
  intros [= <-]. now exists c.
Qed.

Lemma scan_latest_long_titles (env : Env) (remainder : string)
    (soup : list Soup.node) :
  forall (items batch : list string) (w w' : list event),
    length items <= 1 ->
    Forall (fun link =>
              forall title, current_title link = Ret title -> 2 <= String.length title)
           (fst (resolve_all env soup w)) ->
    scan env (String "l" remainder) soup items w = (Ret batch, w') ->
    length batch <= 1.
Proof.
  induction soup as [| link rest IH]; intros items batch w w' Hitems Hlong Hscan.
  - inversion Hscan. now subst.
  - simpl in Hscan. simpl resolve_all in Hlong.
    destruct (resolve env link w) as [[result | e] w1] eqn:Hres.
    + rewrite (iteration_resolve_ret _ _ _ _ _ _ _ Hres), select_latest in Hscan.
      destruct (resolve_all env rest w1) as [links w2] eqn:Hall. simpl fst in Hlong.
      inversion Hlong as [| ? ? Htitle Hrest]; subst.
      assert (Hnext : Forall (fun link =>
                forall title, current_title link = Ret title -> 2 <= String.length title)
                (fst (resolve_all env rest w1))) by now rewrite Hall.
      destruct (PyStr.contains remainder result); [| eauto].
      destruct (current_title result) as [current | e]; [| eauto].
      destruct items as [| item [| item' items]]; simpl in Hitems; try lia.
      * apply (IH ([] ++ [result]) _ _ _ (le_n 1) Hnext Hscan).
      * simpl length in Hscan. simpl Nat.sub in Hscan.
        destruct (PyStr.index result 0) as [ch |] eqn:Hch;
          [| apply (IH [item] _ _ _ (le_n 1) Hnext Hscan)].
        destruct (index_is_one_character _ _ _ Hch) as [c ->].
        destruct (PyStr.contains current (String c EmptyString)) eqn:Hin.
        -- apply contains_in_one_character in Hin.
           specialize (Htitle current eq_refl). lia.
        -- inversion Hscan. subst. simpl. lia.
    + rewrite (iteration_resolve_raise _ _ _ _ _ _ _ Hres) in Hscan. eauto.
Qed.

(** X14: with a "latest" code, when the title of every resolved link has
    two characters or more, the batch is one link: the run of a show ends
    with its first episode. *)
Theorem latest_batch_is_one_link (env : Env) (psa_url remainder : string)
    (w w' : list event) (batch : list string) :
  (forall r,
      http env (w ++ [EvGet psa_url [] []]) = Ret r ->
      Forall (fun link =>
                forall title, current_title link = Ret title -> 2 <= String.length title)
             (fst (resolve_all env (page_boxes env r) (w ++ [EvGet psa_url [] []])))) ->
  psa_bypasser env psa_url (String "l" remainder) w = (Ret batch, w') ->
  length batch = 1.
Proof.
  intros Hlong Hrun.
  destruct (psa_bypasser_ret_inv _ _ _ _ _ _ Hrun) as (r & Hget & Hscan & Hnonempty).
  pose proof (scan_latest_long_titles env remainder _ [] _ _ _
                (Nat.le_0_l 1) (Hlong r Hget) Hscan) as Hone.
  destruct batch; [contradiction | simpl in *; lia].
Qed.

Lemma latest_batch_is_one_link_witness :
  length [Stub.final Stub.episode2] = 1.
Proof.
  apply (latest_batch_is_one_link Stub.env Stub.page_url "720p" []
           (snd (psa_bypasser Stub.env Stub.page_url "l720p" []))).
  - intros r [= <-]. vm_compute. repeat constructor; intros title [= <-]; vm_compute; lia.
  - reflexivity.
Defined.

(** *** The list sent by [handle_callback] *)

Lemma append_nil_r (s : string) : (s ++ "")%string = s.
Proof. induction s as [| c s IH]; simpl; [reflexivity | now rewrite IH]. Qed.

Lemma append_assoc (s t u : string) : ((s ++ t) ++ u)%string = (s ++ t ++ u)%string.
Proof. induction s as [| c s IH]; simpl; [reflexivity | now rewrite IH]. Qed.

Lemma concat_cons (line : string) (lines : list string) :
  String.concat "" (line :: lines) = (line ++ String.concat "" lines)%string.
Proof.
  destruct lines as [| line' lines]; simpl; [now rewrite append_nil_r | reflexivity].
Qed.

Lemma numbered_lines_cons (counter : nat) (link : string) (links : list string) :
  numbered_lines counter (link :: links)
  = (numbered_line (counter, link) ++ numbered_lines (S counter) links)%string.
Proof.
  unfold numbered_lines. cbn [length seq combine map]. apply concat_cons.
Qed.

Lemma link_name_of_segment (link : string) :
  link_name link
  = if has_segment link then Ret (shown_name link) else Raise list_index_error.
Proof.
  unfold has_segment, shown_name, link_name.
  now destruct (list_index (PyStr.split "/" link) 3).
Qed.

(** X15: the text [handle_callback] makes of a batch, from any counter
    and text so far.  When every link has a fourth [/]-separated part it
    is the text followed by one line per link, in the order of the batch
    and numbered from the counter on; one link without that part and the
    whole list is lost to an [IndexError]. *)
Theorem link_lines_numbers_the_batch (links : list string) :
  forall (counter : nat) (message : string),
    link_lines counter links message
    = if forallb has_segment links
      then Ret (message ++ numbered_lines counter links)%string
      else Raise list_index_error.
Proof.
  induction links as [| link links IH]; intros counter message.
  - simpl. unfold numbered_lines. simpl. now rewrite append_nil_r.
  - cbn [link_lines forallb]. rewrite link_name_of_segment.
    destruct (has_segment link) eqn:Hseg; [| reflexivity].
    rewrite IH. cbn [andb]. destruct (forallb has_segment links); [| reflexivity].
    rewrite numbered_lines_cons. unfold numbered_line.
    now rewrite !append_assoc.
Qed.

(** The list of a batch whose links all have a name. *)
Lemma link_lines_of_named (links : list string) :
  forallb has_segment links = true ->
  forall (counter : nat) (message : string),
    link_lines counter links message
    = Ret (message ++ numbered_lines counter links)%string.
Proof.
  induction links as [| link links IH]; intros Hnamed counter message.
  - simpl. unfold numbered_lines. simpl. now rewrite append_nil_r.
  - cbn [forallb] in Hnamed. apply andb_true_iff in Hnamed as [Hseg Hrest].
    cbn [link_lines]. rewrite link_name_of_segment, Hseg, (IH Hrest).
    rewrite numbered_lines_cons. unfold numbered_line.
    now rewrite !append_assoc.
Qed.

Lemma scan_latest_keeps_named (env : Env) (remainder : string)
    (soup : list Soup.node) :
  forall (items batch : list string) (w w' : list event),
    forallb has_segment items = true ->
    scan env (String "l" remainder) soup items w = (Ret batch, w') ->
    forallb has_segment batch = true.
Proof.
  induction soup as [| link rest IH]; intros items batch w w' Hitems Hscan.
  - inversion Hscan. now subst.
  - simpl in Hscan.
    destruct (resolve env link w) as [[result | e] w1] eqn:Hres.
    + rewrite (iteration_resolve_ret _ _ _ _ _ _ _ Hres), select_latest in Hscan.
      destruct (PyStr.contains remainder result); [| eauto].
      destruct (current_title result) as [current | e] eqn:Htitle; [| eauto].
      assert (Hkept : forallb has_segment (items ++ [result]) = true).
      { rewrite forallb_app, Hitems. simpl. unfold has_segment.
        unfold current_title in Htitle.
        now destruct (list_index (PyStr.split "/" result) 3). }
      destruct items as [| item items']; [eauto |].
      destruct (PyStr.index result (length (item :: items') - 1)) as [ch |]; [| eauto].
      destruct (PyStr.contains current ch); [eauto |].
      inversion Hscan. now subst.
    + rewrite (iteration_resolve_raise _ _ _ _ _ _ _ Hres) in Hscan. eauto.
Qed.

(** X16: a batch kept with a "latest" code always makes a list: each of
    its links has passed through the title test, so each has a name and
    [link_lines] gives the numbered text. *)
Theorem latest_batch_makes_a_list (env : Env) (psa_url remainder : string)
    (w w' : list event) (batch : list string) :
  psa_bypasser env psa_url (String "l" remainder) w = (Ret batch, w') ->
  link_lines 1 batch links_header
  = Ret (links_header ++ numbered_lines 1 batch)%string.
Proof.
  intros Hrun.
  destruct (psa_bypasser_ret_inv _ _ _ _ _ _ Hrun) as (r & _ & Hscan & _).
  apply link_lines_of_named.
  exact (scan_latest_keeps_named _ _ _ [] _ _ _ eq_refl Hscan).
Qed.

Lemma latest_batch_makes_a_list_witness :
  link_lines 1 [Stub.final Stub.episode2] links_header
  = Ret (links_header ++ numbered_lines 1 [Stub.final Stub.episode2])%string.
Proof.
  apply (latest_batch_makes_a_list Stub.env Stub.page_url "720p" []
           (snd (psa_bypasser Stub.env Stub.page_url "l720p" []))).
  reflexivity.
Defined.

(** *** The dwells a batch costs *)

Lemma dwells_app (w w' : list event) : dwells (w ++ w') = dwells w + dwells w'.
Proof. unfold dwells. now rewrite filter_app, length_app. Qed.

Section Costs.

Variable env : Env.

Lemma costs_pure {A : Type} (o : outcome A) : costs 0 (of_outcome o).
Proof.
  intros w. exists []. rewrite app_nil_r. repeat split; auto.
Qed.

Lemma costs_ret {A : Type} (a : A) : costs 0 (ret a).
Proof. exact (costs_pure (Ret a)). Qed.

Lemma costs_or_raise {A : Type} (o : option A) (e : exn) : costs 0 (or_raise o e).
Proof. destruct o; [apply costs_ret | exact (costs_pure (Raise e))]. Qed.

Lemma costs_now : costs 0 (now env).
Proof.
  intros w. exists []. rewrite app_nil_r. repeat split; auto.
Qed.

Lemma costs_client_get (url : option string) (params : list (string * Z))
    (headers : list (string * string)) :
  costs 0 (client_get env url params headers).
Proof.
  destruct url as [u |]; [| exact (costs_pure (Raise _))].
  intros w. exists [EvGet u params headers]. repeat split; auto.
Qed.

Lemma costs_client_post (url : string) (headers : list (string * string))
    (data : list (option string * option string)) :
  costs 0 (client_post env url headers data).
Proof.
  intros w. exists [EvPost url headers data]. repeat split; auto.
Qed.

Lemma costs_sleep (seconds : Z) : costs 1 (asyncio_sleep (PyInt seconds)).
Proof.
  intros w. exists [EvSleep seconds]. repeat split; auto.
Qed.

Lemma costs_bind {A B : Type} (n m p : nat) (c : M A) (k : A -> M B) :
  costs n c -> (forall a, costs m (k a)) -> n + m = p -> costs p (bind c k).
Proof.
  intros Hc Hk <- w. unfold bind.
  destruct (Hc w) as (added & Hw & Hmost & Hret).
  destruct (c w) as [[a | e] w1]; simpl in Hw, Hret; subst w1.
  - destruct (Hk a (w ++ added)) as (added' & Hw' & Hmost' & Hret').
    exists (added ++ added'). rewrite Hw', app_assoc, dwells_app.
    specialize (Hret a eq_refl).
    split; [reflexivity | split; [lia |]].
    intros b Hb. rewrite (Hret' b Hb). lia.
  - exists added. split; [reflexivity | split; [lia | discriminate]].
Qed.

Lemma try2link_bypass_costs (url : string) : costs 1 (try2link_bypass env url).
Proof.
  unfold try2link_bypass, json, dict_get.
  eapply costs_bind; [apply costs_pure | intro | reflexivity].
  eapply costs_bind; [apply costs_now | intro | reflexivity].
  cbv zeta.
  eapply costs_bind; [apply costs_client_get | intro | reflexivity].
  eapply costs_bind; [apply costs_or_raise | intro | reflexivity].
  eapply costs_bind; [apply costs_sleep | intro | reflexivity].
  eapply costs_bind; [apply costs_client_post | intro | reflexivity].
  eapply costs_bind; [apply costs_or_raise | intro | reflexivity].
  apply costs_or_raise.
Qed.

Lemma try2link_scrape_costs (url : option string) : costs 1 (try2link_scrape env url).
Proof.
  unfold try2link_scrape.
  eapply costs_bind; [apply costs_client_get | intro | reflexivity].
  eapply costs_bind; [apply costs_or_raise | intro | reflexivity].
  apply try2link_bypass_costs.
Qed.

(** One resolution takes at most one dwell, and exactly one when it gives
    a link. *)
Lemma resolve_costs (link : Soup.node) : costs 1 (resolve env link).
Proof.
  unfold resolve.
  eapply costs_bind; [apply costs_or_raise | intro | reflexivity].
  apply try2link_scrape_costs.
Qed.

Lemma scan_dwells (selection : string) (soup : list Soup.node) :
  forall (items batch : list string) (w w' : list event),
    scan env selection soup items w = (Ret batch, w') ->
    exists added,
      w' = w ++ added
      /\ length batch <= length items + dwells added
      /\ dwells added <= length soup.
Proof.
  induction soup as [| link rest IH]; intros items batch w w' Hscan.
  - inversion Hscan. subst. exists []. rewrite app_nil_r.
    change (dwells []) with 0. simpl. repeat split; lia.
  - simpl in Hscan.
    destruct (resolve_costs link w) as (added & Hw & Hmost & Hret).
    destruct (resolve env link w) as [[result | e] w1] eqn:Hres;
      simpl in Hw, Hret; subst w1.
    + rewrite (iteration_resolve_ret _ _ _ _ _ _ _ Hres) in Hscan.
      specialize (Hret result eq_refl).
      destruct (select selection items result) as [[kept | |] | e].
      * destruct (IH _ _ _ _ Hscan) as (more & -> & Hlen & Hbound).
        exists (added ++ more). rewrite app_assoc, dwells_app.
        rewrite length_app in Hlen. simpl in *. repeat split; lia.
      * destruct (IH _ _ _ _ Hscan) as (more & -> & Hlen & Hbound).
        exists (added ++ more). rewrite app_assoc, dwells_app.
        simpl. repeat split; lia.
      * inversion Hscan. subst. exists added. simpl. repeat split; lia.
      * destruct (IH _ _ _ _ Hscan) as (more & -> & Hlen & Hbound).
        exists (added ++ more). rewrite app_assoc, dwells_app.
        simpl. repeat split; lia.
    + rewrite (iteration_resolve_raise _ _ _ _ _ _ _ Hres) in Hscan.
      destruct (IH _ _ _ _ Hscan) as (more & -> & Hlen & Hbound).
      exists (added ++ more). rewrite app_assoc, dwells_app.
      simpl. repeat split; lia.
Qed.

End Costs.

(** X17: what a batch costs in sleep.  A run of [psa_bypasser] that
    returns a batch has slept once, for the dwell of 7 seconds, for each
    link of the batch at least, and at most once per box of the page. *)
Theorem psa_bypasser_dwells_per_link (env : Env) (psa_url selection : string)
    (w w' : list event) (batch : list string) :
  psa_bypasser env psa_url selection w = (Ret batch, w') ->
  exists r added,
    http env (w ++ [EvGet psa_url [] []]) = Ret r
    /\ w' = w ++ EvGet psa_url [] [] :: added
    /\ length batch <= dwells added
    /\ dwells added <= length (page_boxes env r).
Proof.
  intros Hrun.
  destruct (psa_bypasser_ret_inv _ _ _ _ _ _ Hrun) as (r & Hget & Hscan & _).
  destruct (scan_dwells env _ _ _ _ _ _ Hscan) as (added & -> & Hlen & Hbound).
  exists r, added. rewrite <- app_assoc. simpl in Hlen. now repeat split.
Qed.

Lemma psa_bypasser_dwells_per_link_witness :
  exists r added,
    http Stub.env ([] ++ [EvGet Stub.page_url [] []]) = Ret r
    /\ snd (psa_bypasser Stub.env Stub.page_url "720p" [])
       = [] ++ EvGet Stub.page_url [] [] :: added
    /\ length [Stub.final Stub.episode2; Stub.final Stub.episode1] <= dwells added
    /\ dwells added <= length (page_boxes Stub.env r).
Proof.
  apply (psa_bypasser_dwells_per_link Stub.env Stub.page_url "720p" []).
  reflexivity.
Defined.

(** ** More on the two-stage resolver *)

Lemma drop_prefix_app (p s rest : string) :
  Re.drop_prefix p s = Some rest -> s = (p ++ rest)%string.
Proof.
  revert s. induction p as [| a p IH]; intros s; simpl.
  - now intros [= ->].
  - destruct s as [| b s]; [discriminate |].
    destruct (Ascii.eqb_spec a b) as [-> | _]; [| discriminate].
    intros Hdrop. now rewrite (IH _ Hdrop).
Qed.

Lemma prefix_app (p x y : string) :
  String.prefix x y = true -> String.prefix (p ++ x) (p ++ y) = true.
Proof.
  intros Hpre. induction p as [| a p IH]; simpl; [assumption |].
  destruct (ascii_dec a a); [assumption | contradiction].
Qed.

Lemma lazy_until_space_sound (s group : string) :
  Re.lazy_until_space s = Some group ->
  occurs " " group = false
  /\ occurs PyStr.newline group = false
  /\ String.prefix (group ++ " ") s = true.
Proof.
  revert group. induction s as [| c s IH]; intros group; simpl; [discriminate |].
  destruct (Ascii.eqb c " ") eqn:Hspace.
  - intros [= <-]. apply Ascii.eqb_eq in Hspace. subst c. simpl.
    repeat split. now destruct s.
  - destruct (Ascii.eqb c PyStr.newline) eqn:Hline; [discriminate |].
    destruct (Re.lazy_until_space s) as [g |]; [| discriminate].
    intros [= <-]. destruct (IH g eq_refl) as (Hs & Hl & Hpre).
    simpl. rewrite Hspace, Hline, Hs, Hl.
    repeat split. destruct (ascii_dec c c); [assumption | contradiction].
Qed.

(** X18: the code [try2link_scrape] takes from the first page.  It holds
    no space and no newline, and the page holds the text
    ["try2link.com/"], the code and a space in a row. *)
Theorem findall_first_sound (text code : string) :
  Re.findall_first text = Some code ->
  occurs " " code = false
  /\ occurs PyStr.newline code = false
  /\ PyStr.contains ("try2link.com/" ++ code ++ " ") text = true.
Proof.
  induction text as [| c text IH]; intros Hfind.
  - discriminate.
  - cbn [Re.findall_first] in Hfind.
    destruct (Re.match_here (String c text)) as [group |] eqn:Hhere.
    + injection Hfind as ->. unfold Re.match_here in Hhere.
      destruct (Re.drop_prefix "try2link.com/" (String c text)) as [rest |] eqn:Hdrop;
        [| discriminate].
      destruct (lazy_until_space_sound _ _ Hhere) as (Hs & Hl & Hpre).
      repeat split; try assumption.
      apply contains_of_prefix. rewrite (drop_prefix_app _ _ _ Hdrop).
      now apply prefix_app.
    + destruct (IH Hfind) as (Hs & Hl & Hin).
      repeat split; try assumption. now apply contains_cons.
Qed.

Lemma findall_first_sound_witness :
  occurs " " "f1/" = false
  /\ occurs PyStr.newline "f1/" = false
  /\ PyStr.contains ("try2link.com/" ++ "f1/" ++ " ")
       "<a href=https://try2link.com/f1/ >" = true.
Proof.
  apply (findall_first_sound "<a href=https://try2link.com/f1/ >" "f1/").
  reflexivity.
Defined.

Section Failures.

Variable env : Env.

(** [try2link_scrape] once its first request is answered. *)
Lemma try2link_scrape_fetched (url : string) (w : list event) (res : Response) :
  http env (w ++ [scrape_request url]) = Ret res ->
  try2link_scrape env (Some url) w
  = match Re.findall_first (resp_text res) with
    | Some code =>
        try2link_bypass env ("https://try2link.com/" ++ code) (w ++ [scrape_request url])
    | None => (Raise list_index_error, w ++ [scrape_request url])
    end.
Proof.
  intros Hres. unfold try2link_scrape, client_get, http_call, bind.
  fold (scrape_request url). rewrite Hres.
  now destruct (Re.findall_first (resp_text res)).
Qed.

(** [try2link_bypass] once the gate page is fetched. *)
Lemma try2link_bypass_fetched (url gate : string) (w : list event) (page : Response) :
  strip_slash url = Ret gate ->
  http env (w ++ [gate_request gate (time_time env w)]) = Ret page ->
  try2link_bypass env url w
  = match Soup.find_id "go-link" (parse_html env (resp_text page)) with
    | None =>
        (Raise (none_has_no "find_all"), w ++ [gate_request gate (time_time env w)])
    | Some form =>
        let w' := w ++ [gate_request gate (time_time env w); EvSleep 7;
                        go_request gate form] in
        (match http env w' with
         | Raise e => Raise e
         | Ret answer =>
             match resp_json answer with
             | None => Raise (LibraryError "Expecting value")
             | Some body =>
                 match dict_lookup "url" body with
                 | Some final_url => Ret final_url
                 | None => Raise (KeyError "'url'")
                 end
             end
         end, w')
    end.
Proof.
  intros Hgate Hpage.
  unfold try2link_bypass, bind, of_outcome, now, client_get, http_call.
  rewrite Hgate. change (60 * 4)%Z with 240%Z.
  fold (gate_request gate (time_time env w)). rewrite Hpage.
  destruct (Soup.find_id "go-link" (parse_html env (resp_text page))) as [form |];
    [| reflexivity].
  cbn [or_raise ret asyncio_sleep]. unfold client_post, http_call.
  fold (go_request gate form). rewrite <- !app_assoc. cbn [app].
  destruct (http env (w ++ [gate_request gate (time_time env w); EvSleep 7;
                            go_request gate form])) as [answer | e];
    [| reflexivity].
  unfold json, dict_get.
  destruct (resp_json answer) as [body |]; [| reflexivity].
  cbn [or_raise ret]. now destruct (dict_lookup "url" body).
Qed.

End Failures.

(** X19: a first page in which the pattern has no match: the resolution
    raises [IndexError] after that one request; the gate is never
    asked. *)
Theorem try2link_scrape_without_code (env : Env) (url : string) (w : list event)
    (res : Response) :
  http env (w ++ [scrape_request url]) = Ret res ->
  Re.findall_first (resp_text res) = None ->
  try2link_scrape env (Some url) w
  = (Raise list_index_error, w ++ [scrape_request url]).
Proof.
  intros Hres Hnone. now rewrite (try2link_scrape_fetched env _ _ _ Hres), Hnone.
Qed.

Lemma try2link_scrape_without_code_witness :
  try2link_scrape Stub.env (Some Stub.page_url) []
  = (Raise list_index_error, [] ++ [scrape_request Stub.page_url]).
Proof.
  apply (try2link_scrape_without_code Stub.env Stub.page_url [] (Stub.html "PAGE"));
    reflexivity.
Defined.

(** X20: a gate page without the [go-link] container: the resolution
    raises [AttributeError] after its two GET requests, before any dwell
    and without posting anything. *)
Theorem try2link_scrape_without_form (env : Env) (url : string) (w : list event)
    (res page : Response) (code gate : string) :
  let first_stage := scrape_request url in
  let second_stage := gate_request gate (time_time env (w ++ [first_stage])) in
  http env (w ++ [first_stage]) = Ret res ->
  Re.findall_first (resp_text res) = Some code ->
  strip_slash ("https://try2link.com/" ++ code)%string = Ret gate ->
  http env (w ++ [first_stage; second_stage]) = Ret page ->
  Soup.find_id "go-link" (parse_html env (resp_text page)) = None ->
  try2link_scrape env (Some url) w
  = (Raise (none_has_no "find_all"), w ++ [first_stage; second_stage]).
Proof.
  intros first_stage second_stage Hres Hcode Hgate Hpage Hform.
  subst first_stage second_stage.
  rewrite (try2link_scrape_fetched env _ _ _ Hres), Hcode.
  assert (Hpage' :
            http env ((w ++ [scrape_request url])
                        ++ [gate_request gate (time_time env (w ++ [scrape_request url]))])
            = Ret page)
    by (rewrite <- app_assoc; exact Hpage).
  rewrite (try2link_bypass_fetched env _ _ _ _ Hgate Hpage'), Hform.
  now rewrite <- app_assoc.
Qed.

Lemma try2link_scrape_without_form_witness :
  try2link_scrape bare_world (Some (Stub.gate Stub.film)) []
  = (Raise (none_has_no "find_all"),
     [] ++ [ scrape_request (Stub.gate Stub.film);
             gate_request "https://try2link.com/f1" 1700000001 ]).
Proof.
  apply (try2link_scrape_without_form bare_world (Stub.gate Stub.film) []
           (Stub.html "<a href=https://try2link.com/f1/ >") (Stub.html "FORM f1")
           "f1/" "https://try2link.com/f1"); reflexivity.
Defined.



(** *** The posted form data *)

Lemma in_dict_set_keys (d : list (option string * option string))
    (key value x : option string) :
  In x (map fst (dict_set d key value)) -> x = key \/ In x (map fst d).
Proof.
  induction d as [| [k v] d IH]; simpl.
  - intros [<- | []]. now left.
  - destruct (option_string_eqb k key); simpl.
    + intros [<- | Hin]; auto.
    + intros [<- | Hin]; auto. destruct (IH Hin); auto.
Qed.

Lemma dict_set_keeps_keys_distinct (d : list (option string * option string))
    (key value : option string) :
  NoDup (map fst d) -> NoDup (map fst (dict_set d key value)).
Proof.
  induction d as [| [k v] d IH]; intros Hnodup; simpl.
  - constructor; [intros [] | constructor].
  - inversion Hnodup as [| ? ? Hfresh Hrest]; subst.
    destruct (option_string_eqb k key) eqn:Heq; simpl.
    + now constructor.
    + constructor; [| now apply IH].
      intros Hin. destruct (in_dict_set_keys _ _ _ _ Hin) as [-> | Hold].
      * assert (option_string_eqb key key = true) by now apply option_string_eqb_eq.
        congruence.
      * contradiction.
Qed.

(** X22: the posted data are a dict: no name is posted twice, whatever
    the inputs of the form. *)
Theorem form_data_names_are_distinct (inputs : list Soup.node) :
  NoDup (map fst (form_data inputs)).
Proof.
  unfold form_data.
  assert (Hfold : forall d : list (option string * option string),
             NoDup (map fst d) ->
             NoDup (map fst
                      (fold_left
                         (fun d input =>
                            dict_set d (Soup.get "name" input) (Soup.get "value" input))
                         inputs d))).
  { induction inputs as [| input inputs IH]; intros d Hd; simpl; [assumption |].
    apply IH. now apply dict_set_keeps_keys_distinct. }
  apply Hfold. constructor.
Qed.

Lemma form_lookup_dict_set (d : list (option string * option string))
    (key value wanted : option string) :
  form_lookup wanted (dict_set d key value)
  = if option_string_eqb key wanted then Some value else form_lookup wanted d.
Proof.
  unfold form_lookup. induction d as [| [k v] d IH]; simpl.
  - now destruct (option_string_eqb key wanted).
  - destruct (option_string_eqb k key) eqn:Hk; simpl.
    + apply option_string_eqb_eq in Hk. subst k.
      now destruct (option_string_eqb key wanted).
    + destruct (option_string_eqb k wanted) eqn:Hw; simpl.
      * destruct (option_string_eqb key wanted) eqn:Hkey; [| reflexivity].
        apply option_string_eqb_eq in Hw, Hkey. subst.
        assert (option_string_eqb wanted wanted = true)
          by now apply option_string_eqb_eq.
        congruence.
      * exact IH.
Qed.

Lemma find_last {A : Type} (p : A -> bool) (l : list A) (x : A) :
  find p (l ++ [x])
  = match find p l with
    | Some y => Some y
    | None => if p x then Some x else None
    end.
Proof.
  induction l as [| y l IH]; simpl; [reflexivity |].
  now destruct (p y).
Qed.

(** X23: when several inputs of the form have one name, the value posted
    under it is that of the last of them in document order; a name no
    input has is not posted. *)
Theorem form_data_last_value_wins (inputs : list Soup.node) (key : option string) :
  form_lookup key (form_data inputs)
  = option_map (Soup.get "value") (find (named key) (rev inputs)).
Proof.
  unfold form_data.
  assert (Hfold : forall d : list (option string * option string),
             form_lookup key
               (fold_left
                  (fun d input =>
                     dict_set d (Soup.get "name" input) (Soup.get "value" input))
                  inputs d)
             = match find (named key) (rev inputs) with
               | Some input => Some (Soup.get "value" input)
               | None => form_lookup key d
               end).
  { induction inputs as [| input inputs IH]; intros d; simpl; [reflexivity |].
    rewrite IH, find_last, form_lookup_dict_set.
    destruct (find (named key) (rev inputs)); [reflexivity |].
    unfold named. now destruct (option_string_eqb (Soup.get "name" input) key). }
  rewrite Hfold. now destruct (find (named key) (rev inputs)).
Qed.

(** *** The gate URL *)

Lemma last_app_slash (url : string) : PyStr.last (url ++ "/") = Some "/"%char.
Proof.
  induction url as [| c url IH]; [reflexivity |].
  simpl. rewrite IH. now destruct (url ++ "/")%string.
Qed.

Lemma drop_last_app_slash (url : string) : PyStr.drop_last (url ++ "/") = url.
Proof.
  induction url as [| c url IH]; [reflexivity |].
  simpl. rewrite IH. destruct url; reflexivity.
Qed.

(** X24: a slash at the end of the gate URL makes no difference: for a URL
    that does not end in a slash, [try2link_bypass] runs the same with and
    without one added. *)
Theorem try2link_bypass_ignores_trailing_slash (env : Env) (url : string)
    (c : ascii) (w : list event) :
  PyStr.last url = Some c ->
  c <> "/"%char ->
  try2link_bypass env (url ++ "/") w = try2link_bypass env url w.
Proof.
  intros Hlast Hc. unfold try2link_bypass, bind, of_outcome, strip_slash.
  rewrite last_app_slash, drop_last_app_slash, Hlast.
  destruct (Ascii.eqb_spec c "/") as [-> | _]; [contradiction | reflexivity].
Qed.

Lemma try2link_bypass_ignores_trailing_slash_witness :
  try2link_bypass Stub.env ("https://try2link.com/e1" ++ "/") []
  = try2link_bypass Stub.env "https://try2link.com/e1" [].
Proof.
  apply (try2link_bypass_ignores_trailing_slash Stub.env "https://try2link.com/e1" "1" []).
  - reflexivity.
  - discriminate.
Defined.

(** *** The names of the links *)

Lemma split_nonempty (sep : ascii) (s : string) : PyStr.split sep s <> [].
Proof.
  destruct s as [| c s]; simpl; [discriminate |].
  destruct (Ascii.eqb c sep); [discriminate |].
  destruct (PyStr.split sep s); discriminate.
Qed.

(** Splitting at a character and joining with another replaces the one
    by the other. *)
Lemma join_split_replaces (a b : ascii) (s : string) :
  PyStr.join (String b EmptyString) (PyStr.split a s)
  = PyStr.replace (String a EmptyString) (String b EmptyString) s.
Proof.
  unfold PyStr.join. induction s as [| c s IH]; [reflexivity |].
  rewrite replace_char. simpl PyStr.split.
  pose proof (split_nonempty a s) as Hne.
  destruct (Ascii.eqb c a).
  - destruct (PyStr.split a s) as [| word words]; [contradiction |].
    cbn [String.concat]. simpl. f_equal. exact IH.
  - destruct (PyStr.split a s) as [| word words]; [contradiction |].
    rewrite <- IH. destruct words; reflexivity.
Qed.

(** X25: the name shown for a link is its fourth [/]-separated part with
    every hyphen turned into a space, then capitalised and stripped. *)
Theorem link_name_humanises_the_segment (link seg : string) :
  list_index (PyStr.split "/" link) 3 = Some seg ->
  link_name link
  = Ret (PyStr.strip (PyStr.capitalize (PyStr.replace "-" " " seg))).
Proof.
  intros Hseg. unfold link_name. rewrite Hseg.
  now rewrite (join_split_replaces "-" " " seg).
Qed.

Lemma link_name_humanises_the_segment_witness :
  link_name "https://dl.example/The-Show-S01E02-720p"
  = Ret (PyStr.strip (PyStr.capitalize (PyStr.replace "-" " " "The-Show-S01E02-720p"))).
Proof.
  apply (link_name_humanises_the_segment
           "https://dl.example/The-Show-S01E02-720p" "The-Show-S01E02-720p").
  reflexivity.
Defined.

Lemma form_data_distinct_names_witness :
  form_data (Soup.find_all_name "input" (Stub.go_form "f1"))
  = map input_pair (Soup.find_all_name "input" (Stub.go_form "f1")).
Proof.
  apply (form_data_distinct_names (Soup.find_all_name "input" (Stub.go_form "f1"))).
  vm_compute. repeat constructor; simpl; intuition discriminate.
Defined.

(** ** What the resolver leaves alone *)

(** X28: the resolution never talks to Telegram and never logs: whatever
    the outside world answers, [try2link_scrape] and [psa_bypasser] make
    no call but HTTP requests and dwells of 7 seconds. *)
Theorem resolver_makes_only_resolver_calls (env : Env) (psa_url selection : string)
    (url : option string) :
  emits resolver_call (try2link_scrape env url)
  /\ emits resolver_call (psa_bypasser env psa_url selection).
Proof.
  split.
  - apply try2link_scrape_emits.
  - apply psa_bypasser_emits.
Qed.
